(** * Editorial orchestrator: cache-first pipeline and error normalisation

    A shallow embedding of [src/application/orchestrator.py]
    ([AsyncEditorialOrchestrator]) and the properties of its cache strategy.

    The orchestrator is sequential: every [await] is a call that runs to
    completion before the next statement starts.  A call is therefore a
    function from the state before it to an outcome (a value or a raised
    exception) and the state after it.  State changes made before an
    exception is raised are kept, as in Python. *)

From Stdlib Require Import Ascii String.
From stdpp Require Import base option strings list gmap.

Local Open Scope string_scope.
#[local] Set Warnings "-register-all".

(** ** Raw values exchanged with the cache backend

    The backend stores and returns plain Python values.  [RNone] is Python's
    [None], which the backend also returns for a key it does not hold. *)

Inductive Raw : Type :=
  | RNone
  | RBool (b : bool)
  | RInt (z : Z)
  | RStr (s : string)
  | RList (l : list Raw)
  | RDict (d : list (string * Raw)).

(** Python truth value, as tested by [if cached_data:]. *)
Definition truthy (v : Raw) : bool :=
  match v with
  | RNone => false
  | RBool b => b
  | RInt z => negb (Z.eqb z 0)
  | RStr s => negb (String.eqb s "")
  | RList l => match l with [] => false | _ => true end
  | RDict d => match d with [] => false | _ => true end
  end.

(** ** Exceptions

    An exception is an instance of Python's [Exception]: what the handlers
    [except Exception] of the source catch.  Its class is either
    [CodeforcesEditorialError] (or a subclass of it) or any other class.
    [exn_cause] is [__cause__], set by [raise ... from e]. *)

Inductive ExnClass : Type :=
  | DomainClass (name : string)
  | OtherClass (name : string).

Inductive Exn : Type :=
  | MkExn (cls : ExnClass) (msg : string) (cause : option Exn).

Definition exn_class (e : Exn) : ExnClass := let 'MkExn c _ _ := e in c.

(** [str(e)], the rendering of [e] in an f-string. *)
Definition exn_msg (e : Exn) : string := let 'MkExn _ m _ := e in m.

Definition exn_cause (e : Exn) : option Exn := let 'MkExn _ _ c := e in c.

(** [isinstance(e, CodeforcesEditorialError)] *)
Definition is_domain (e : Exn) : bool :=
  match exn_class e with
  | DomainClass _ => true
  | OtherClass _ => false
  end.

(** [CodeforcesEditorialError(msg)] raised [from cause]. *)
Definition CodeforcesEditorialError (msg : string) (cause : Exn) : Exn :=
  MkExn (DomainClass "CodeforcesEditorialError") msg (Some cause).

(** Outcome of a call: a returned value or a raised exception. *)
Inductive Result (A : Type) : Type :=
  | Ok (a : A)
  | Raise (e : Exn).
Arguments Ok {A} a.
Arguments Raise {A} e.

(** ** Domain models *)

(** The cache envelope, built at lines 129-134 with these four fields. *)
Record CachedEditorialOf (I E F : Type) : Type := MkCachedEditorial {
  problem : I;
  editorial : E;
  tutorial_url : string;
  tutorial_format : F
}.
Arguments MkCachedEditorial {I E F}.
Arguments problem {I E F}.
Arguments editorial {I E F}.
Arguments tutorial_url {I E F}.
Arguments tutorial_format {I E F}.

(** The names imported from [domain.models] and [domain.parsers.url_parser],
    whose declarations are outside the orchestrator: the code below uses
    only the attributes and methods listed here.  [str_identifier] and
    [repr_identifier] are the renderings used in log messages.  An
    [Editorial] is a model object, so a returned one is true in
    [if cached_result:]; only [None] is false there.  [to_dict] stands for
    the construction of the envelope and its serialisation, either of which
    may raise. *)
Class Models : Type := {
  ProblemIdentifier : Type;
  cache_key : ProblemIdentifier -> string;
  str_identifier : ProblemIdentifier -> string;
  repr_identifier : ProblemIdentifier -> string;
  ProblemData : Type;
  title : ProblemData -> string;
  TutorialFormat : Type;
  TutorialData : Type;
  format : TutorialData -> TutorialFormat;
  Editorial : Type;
  to_dict : CachedEditorialOf ProblemIdentifier Editorial TutorialFormat -> Result Raw;
  from_dict : Raw -> Result (CachedEditorialOf ProblemIdentifier Editorial TutorialFormat);
  URLParser_parse : string -> Result ProblemIdentifier
}.

Definition CachedEditorial `{Models} : Type :=
  CachedEditorialOf ProblemIdentifier Editorial TutorialFormat.

(** ** Call trace

    Every call the orchestrator makes is recorded in order: calls to the
    collaborators and to the cache backend, calls to its own cache methods,
    and log records. *)

Inductive Level : Type := DEBUG | INFO | WARNING | ERROR.

Inductive Event `{Models} : Type :=
  | EvLog (lvl : Level) (msg : string)
  | EvUrlParse (url : string)
  | EvGetFromCache (identifier : ProblemIdentifier)
  | EvCacheGet (key : string)
  | EvParseProblemPage (identifier : ProblemIdentifier)
  | EvFindTutorial (identifier : ProblemIdentifier)
  | EvTutorialParse (url : string)
  | EvExtract (tutorial_data : TutorialData) (identifier : ProblemIdentifier)
              (problem_title : string)
  | EvSaveToCache (identifier : ProblemIdentifier) (e : Editorial)
                  (url : string) (fmt : TutorialFormat)
  | EvCacheSet (key : string) (value : Raw)
  | EvFlushdb.

(** ** The monad of method bodies

    A method body maps the state before it to its outcome and the state
    after it. *)

Section Monad.

Context {S : Type}.

Definition M (A : Type) : Type := S -> Result A * S.

Definition ret {A : Type} (a : A) : M A := fun s => (Ok a, s).

Definition bind {A B : Type} (m : M A) (k : A -> M B) : M B :=
  fun s =>
    match m s with
    | (Ok a, s') => k a s'
    | (Raise e, s') => (Raise e, s')
    end.

Definition raise {A : Type} (e : Exn) : M A := fun s => (Raise e, s).

(** [try: body / except Exception as e: handler] *)
Definition try_except {A : Type} (body : M A) (handler : Exn -> M A) : M A :=
  fun s =>
    match body s with
    | (Ok a, s') => (Ok a, s')
    | (Raise e, s') => handler e s'
    end.

End Monad.

Arguments M : clear implicits.

Notation "'do' x <- m ; k" := (bind m (fun x => k))
  (at level 10, x name, m at level 100, k at level 200,
   format "'[v' 'do'  x  <-  m ; '/' k ']'").

(** ** Collaborators

    [World] is everything outside the orchestrator object that a
    collaborator can read or change: the network, the AI service, the
    contents of the cache backend.  A method of a collaborator takes the
    world before the call and gives its outcome and the world after. *)

Section Orchestrator.

Context `{HM : Models}.
Context {World : Type}.

Definition Call (A : Type) : Type := World -> Result A * World.

Record ProblemPageParser : Type := {
  parse_problem_page : ProblemIdentifier -> Call ProblemData
}.

Record TutorialFinder : Type := {
  find_tutorial : ProblemIdentifier -> Call string
}.

Record TutorialParser : Type := {
  parse : string -> Call TutorialData
}.

Record EditorialExtractor : Type := {
  extract : TutorialData -> ProblemIdentifier -> string -> Call Editorial
}.

Record CacheClient : Type := {
  get : string -> Call Raw;
  set : string -> Raw -> Call unit;
  flushdb : Call unit
}.

(** The clients handed to the constructor and the collaborator classes it
    instantiates from them (lines 39-42). *)
Class Clients : Type := {
  HttpClient : Type;
  AiClient : Type;
  new_ProblemPageParser : HttpClient -> ProblemPageParser;
  new_TutorialParser : HttpClient -> TutorialParser;
  new_TutorialFinder : AiClient -> HttpClient -> TutorialFinder;
  new_EditorialExtractor : AiClient -> EditorialExtractor
}.

Context `{HC : Clients}.

(** The fields of an [AsyncEditorialOrchestrator] instance.  A cache client
    is [None] or a client object; a client object is true in a condition. *)
Record AsyncEditorialOrchestrator : Type := {
  http_client : HttpClient;
  ai_client : AiClient;
  cache_client : option CacheClient;
  use_cache : bool;
  problem_parser : ProblemPageParser;
  tutorial_parser : TutorialParser;
  tutorial_finder : TutorialFinder;
  editorial_extractor : EditorialExtractor
}.

(** [x is not None]; for a cache client also its truth value in
    [if self.cache_client:]. *)
Definition is_not_None {A : Type} (x : option A) : bool :=
  match x with
  | Some _ => true
  | None => false
  end.

(** [__init__], lines 33-42. *)
Definition init (http : HttpClient) (ai : AiClient)
    (cache : option CacheClient) (use_cache_arg : bool) : AsyncEditorialOrchestrator :=
  {| http_client := http;
     ai_client := ai;
     cache_client := cache;
     use_cache := use_cache_arg && is_not_None cache;
     problem_parser := new_ProblemPageParser http;
     tutorial_parser := new_TutorialParser http;
     tutorial_finder := new_TutorialFinder ai http;
     editorial_extractor := new_EditorialExtractor ai |}.

(** The state threaded through a method: the orchestrator object [self]
    (a mutable Python object), the outside world, and the call trace. *)
Record State : Type := MkState {
  self : AsyncEditorialOrchestrator;
  world : World;
  trace : list Event
}.

(** Appends one record to the trace. *)
Definition emit (ev : Event) : M State unit :=
  fun s => (Ok tt, MkState (self s) (world s) (trace s ++ [ev])).

Definition log (lvl : Level) (msg : string) : M State unit := emit (EvLog lvl msg).

(** Reads an attribute of [self]. *)
Definition attr {A : Type} (f : AsyncEditorialOrchestrator -> A) : M State A :=
  fun s => (Ok (f (self s)), s).

(** [await c(...)]: runs a collaborator call on the world and records it
    as [ev]. *)
Definition await {A : Type} (ev : Event) (c : Call A) : M State A :=
  fun s => let '(r, w) := c (world s) in (r, MkState (self s) w (trace s ++ [ev])).

(** A call of a function of the models, which does not touch the world. *)
Definition pure_call {A : Type} (r : Result A) : M State A := fun s => (r, s).

(** [_get_from_cache], lines 94-113. *)
Definition _get_from_cache (identifier : ProblemIdentifier) : M State (option Editorial) :=
  do _ <- emit (EvGetFromCache identifier);
  do client <- attr cache_client;
  match client with
  | None => ret None
  | Some c =>
      try_except
        (do cached_data <- await (EvCacheGet (cache_key identifier))
                                 (get c (cache_key identifier));
         if truthy cached_data then
           do _ <- log DEBUG ("Get editorial for identifier="
                               ++ repr_identifier identifier ++ " from cache");
           do cached <- pure_call (from_dict cached_data);
           ret (Some (editorial cached))
         else
           do _ <- log DEBUG ("Cache miss for " ++ cache_key identifier);
           ret None)
        (fun exc =>
           do _ <- log WARNING ("Cache retrieval failed: " ++ exn_msg exc);
           ret None)
  end.

(** [_save_to_cache], lines 115-138. *)
Definition _save_to_cache (identifier : ProblemIdentifier) (e : Editorial)
    (url : string) (fmt : TutorialFormat) : M State unit :=
  do _ <- emit (EvSaveToCache identifier e url fmt);
  do client <- attr cache_client;
  match client with
  | None => ret tt
  | Some c =>
      try_except
        (do _ <- log DEBUG ("Saving editorial to cache: " ++ cache_key identifier);
         let cached_editorial :=
           {| problem := identifier; editorial := e;
              tutorial_url := url; tutorial_format := fmt |} in
         do cached_data <- pure_call (to_dict cached_editorial);
         await (EvCacheSet (cache_key identifier) cached_data)
               (set c (cache_key identifier) cached_data))
        (fun exc =>
           log WARNING ("Failed to save to cache: " ++ exn_msg exc))
  end.

(** Lines 60-86 of [get_editorial]: the statements after the cache block. *)
Definition run_pipeline (identifier : ProblemIdentifier) : M State (Editorial * ProblemData) :=
  do _ <- log DEBUG ("Parsing problem page for " ++ str_identifier identifier);
  do pp <- attr problem_parser;
  do problem_data <- await (EvParseProblemPage identifier)
                           (parse_problem_page pp identifier);
  do _ <- log DEBUG ("Finding tutorial for " ++ str_identifier identifier);
  do tf <- attr tutorial_finder;
  do tutorial_url <- await (EvFindTutorial identifier)
                           (find_tutorial tf identifier);
  do _ <- log DEBUG ("Parsing tutorial content from " ++ tutorial_url);
  do tp <- attr tutorial_parser;
  do tutorial_data <- await (EvTutorialParse tutorial_url)
                            (parse tp tutorial_url);
  do _ <- log DEBUG "Extracting editorial content";
  do ex <- attr editorial_extractor;
  do editorial <- await (EvExtract tutorial_data identifier (title problem_data))
                        (extract ex tutorial_data identifier (title problem_data));
  do uc <- attr use_cache;
  do client <- attr cache_client;
  do _ <- (if uc && is_not_None client
           then _save_to_cache identifier editorial tutorial_url (format tutorial_data)
           else ret tt);
  do _ <- log INFO ("Editorial extraction completed for " ++ str_identifier identifier);
  ret (editorial, problem_data).

(** Lines 50-86 of [get_editorial]: the body of its [try] statement. *)
Definition get_editorial_body (url : string) : M State (Editorial * ProblemData) :=
  do _ <- emit (EvUrlParse url);
  do identifier <- pure_call (URLParser_parse url);
  do _ <- log DEBUG ("Resolved problem identifier: " ++ str_identifier identifier);
  do uc <- attr use_cache;
  do client <- attr cache_client;
  if uc && is_not_None client then
    do cached_result <- _get_from_cache identifier;
    match cached_result with
    | Some cached =>
        do pp <- attr problem_parser;
        do problem_data <- await (EvParseProblemPage identifier)
                                 (parse_problem_page pp identifier);
        ret (cached, problem_data)
    | None => run_pipeline identifier
    end
  else run_pipeline identifier.

(** Lines 88-92 of [get_editorial]: the two [except] clauses. *)
Definition get_editorial_handler {A : Type} (e : Exn) : M State A :=
  if is_domain e then raise e
  else
    do _ <- log ERROR ("Unexpected error in orchestrator: " ++ exn_msg e);
    raise (CodeforcesEditorialError ("Failed to get editorial: " ++ exn_msg e) e).

(** [get_editorial], lines 44-92. *)
Definition get_editorial (url : string) : M State (Editorial * ProblemData) :=
  do _ <- log DEBUG ("Starting editorial extraction for URL: " ++ url);
  try_except (get_editorial_body url) get_editorial_handler.

(** [clear_cache], lines 140-146. *)
Definition clear_cache : M State unit :=
  do client <- attr cache_client;
  match client with
  | Some c =>
      do _ <- log INFO "Clearing cache";
      await EvFlushdb (flushdb c)
  | None => log WARNING "Cache is not enabled"
  end.

(** ** Vocabulary of the properties *)

(** The operations whose invocation the properties count.  [Lookup] and
    [Store] are the orchestrator's own [_get_from_cache] and
    [_save_to_cache]; [BackendGet], [BackendSet] and [BackendFlush] are the
    methods of the cache client. *)
Inductive Step : Type :=
  | Resolve | Lookup | BackendGet | ProblemFetch | Locate | ContentFetch
  | Extract | Store | BackendSet | BackendFlush.

Definition step_of (ev : Event) : option Step :=
  match ev with
  | EvLog _ _ => None
  | EvUrlParse _ => Some Resolve
  | EvGetFromCache _ => Some Lookup
  | EvCacheGet _ => Some BackendGet
  | EvParseProblemPage _ => Some ProblemFetch
  | EvFindTutorial _ => Some Locate
  | EvTutorialParse _ => Some ContentFetch
  | EvExtract _ _ _ => Some Extract
  | EvSaveToCache _ _ _ _ => Some Store
  | EvCacheSet _ _ => Some BackendSet
  | EvFlushdb => Some BackendFlush
  end.

(** The operations invoked along a trace, in order, log records left out. *)
Definition steps (t : list Event) : list Step := omap step_of t.

Definition is_cache_step (st : Step) : bool :=
  match st with
  | Lookup | BackendGet | Store | BackendSet | BackendFlush => true
  | _ => false
  end.

(** The state in which [get_editorial] reaches its cache block once [url]
    has resolved to [identifier]: three records were appended to the trace. *)
Definition resolved (url : string) (identifier : ProblemIdentifier) (s : State) : State :=
  MkState (self s) (world s)
    (trace s ++ [EvLog DEBUG ("Starting editorial extraction for URL: " ++ url);
                 EvUrlParse url;
                 EvLog DEBUG ("Resolved problem identifier: " ++ str_identifier identifier)]).

(** Whether the cache block of [get_editorial] is entered (lines 54, 77). *)
Definition caching (o : AsyncEditorialOrchestrator) : bool :=
  use_cache o && is_not_None (cache_client o).

(** What the caller observes when a step raises [e]. *)
Definition normalise (e : Exn) : Exn :=
  if is_domain e then e
  else CodeforcesEditorialError ("Failed to get editorial: " ++ exn_msg e) e.

(** The change of the world made by the call recorded as [ev], for the
    collaborators held by [o]. *)
Definition effect_of (o : AsyncEditorialOrchestrator) (ev : Event) (w : World) : World :=
  match ev with
  | EvCacheGet k =>
      match cache_client o with Some c => snd (get c k w) | None => w end
  | EvCacheSet k v =>
      match cache_client o with Some c => snd (set c k v w) | None => w end
  | EvFlushdb =>
      match cache_client o with Some c => snd (flushdb c w) | None => w end
  | EvParseProblemPage i => snd (parse_problem_page (problem_parser o) i w)
  | EvFindTutorial i => snd (find_tutorial (tutorial_finder o) i w)
  | EvTutorialParse u => snd (parse (tutorial_parser o) u w)
  | EvExtract td i t => snd (extract (editorial_extractor o) td i t w)
  | EvLog _ _ | EvUrlParse _ | EvGetFromCache _ | EvSaveToCache _ _ _ _ => w
  end.

Definition replay (o : AsyncEditorialOrchestrator) (evs : list Event) (w : World) : World :=
  fold_left (fun w ev => effect_of o ev w) evs w.

(** [frame s s' evs]: from [s] to [s'] the orchestrator object is unchanged,
    [evs] was appended to the trace, and the world changed only through the
    calls recorded in [evs]. *)
Definition frame (s s' : State) (evs : list Event) : Prop :=
  self s' = self s /\ trace s' = (trace s ++ evs)%list /\
  world s' = replay (self s) evs (world s).

(** The calls of a trace: its records other than log records. *)
Definition calls (t : list Event) : list Event :=
  omap (fun ev => match step_of ev with Some _ => Some ev | None => None end) t.

(** The state in which the [try] statement of [get_editorial] is entered. *)
Definition started (url : string) (s : State) : State :=
  MkState (self s) (world s)
    (trace s ++ [EvLog DEBUG ("Starting editorial extraction for URL: " ++ url)]).

(** The cache block of [get_editorial], run once [url] has resolved to
    [identifier], yields no cached editorial and leaves the state [s1]:
    either the block is skipped, or [_get_from_cache] returns [None]. *)
Definition lookup_absent (url : string) (identifier : ProblemIdentifier)
    (s s1 : State) : Prop :=
  (caching (self s) = false /\ s1 = resolved url identifier s) \/
  (caching (self s) = true /\
   _get_from_cache identifier (resolved url identifier s) = (Ok None, s1)).

(** [m] run from [s] returns normally, makes no call and changes neither
    the orchestrator nor the world: it can only add log records. *)
Definition is_noop (m : M State unit) (s : State) : Prop :=
  exists logs,
    m s = (Ok tt, MkState (self s) (world s) (trace s ++ logs)) /\ steps logs = [].

(** [e] is raised by a call to one of the four pipeline collaborators of [o]. *)
Definition raised_by_collaborator (o : AsyncEditorialOrchestrator) (e : Exn) : Prop :=
  (exists i w w', parse_problem_page (problem_parser o) i w = (Raise e, w')) \/
  (exists i w w', find_tutorial (tutorial_finder o) i w = (Raise e, w')) \/
  (exists u w w', parse (tutorial_parser o) u w = (Raise e, w')) \/
  (exists td i t w w', extract (editorial_extractor o) td i t w = (Raise e, w')).

(** The calls of a trace that go to the cache client. *)
Definition backend_calls (t : list Event) : list Event :=
  omap (fun ev =>
          match ev with
          | EvCacheGet _ | EvCacheSet _ _ | EvFlushdb => Some ev
          | _ => None
          end) t.

(** The four pipeline collaborators of [o] only read the world. *)
Definition collaborators_read_only (o : AsyncEditorialOrchestrator) : Prop :=
  (forall i w, (parse_problem_page (problem_parser o) i w).2 = w) /\
  (forall i w, (find_tutorial (tutorial_finder o) i w).2 = w) /\
  (forall u w, (parse (tutorial_parser o) u w).2 = w) /\
  (forall td i t w, (extract (editorial_extractor o) td i t w).2 = w).

(** The first pipeline step that raises, run from [s], raises [e]. *)
Definition pipeline_step_raises (identifier : ProblemIdentifier) (s : State)
    (e : Exn) : Prop :=
  match parse_problem_page (problem_parser (self s)) identifier (world s) with
  | (Raise e1, _) => e1 = e
  | (Ok problem_data, w1) =>
      match find_tutorial (tutorial_finder (self s)) identifier w1 with
      | (Raise e2, _) => e2 = e
      | (Ok url, w2) =>
          match parse (tutorial_parser (self s)) url w2 with
          | (Raise e3, _) => e3 = e
          | (Ok tutorial_data, w3) =>
              match extract (editorial_extractor (self s)) tutorial_data identifier
                      (title problem_data) w3 with
              | (Raise e4, _) => e4 = e
              | (Ok _, _) => False
              end
          end
      end
  end.

(** What a whole call can do: it leaves a frame, and what it raises is the
    normalised form of an exception raised by the resolver or by one of the
    four pipeline collaborators. *)
Definition call_outcome (url : string) (s : State)
    (r : Result (Editorial * ProblemData)) (s' : State) : Prop :=
  (exists evs, frame s s' evs) /\
  match r with
  | Ok _ => True
  | Raise e =>
      exists e0, e = normalise e0 /\
        (URLParser_parse url = Raise e0 \/ raised_by_collaborator (self s) e0)
  end.

(** A failed cache read: the backend's [get] raises [e], or it returns a
    true value that [from_dict] rejects with [e].  [w1] is the world the
    backend call leaves. *)
Definition read_fails (c : CacheClient) (identifier : ProblemIdentifier)
    (w w1 : World) (e : Exn) : Prop :=
  get c (cache_key identifier) w = (Raise e, w1) \/
  exists raw, get c (cache_key identifier) w = (Ok raw, w1) /\
    truthy raw = true /\ from_dict raw = Raise e.

(** ** Vocabulary of the further properties *)

(** The envelope [_save_to_cache] builds at lines 129-134. *)
Definition envelope (identifier : ProblemIdentifier) (e : Editorial)
    (url : string) (fmt : TutorialFormat) : CachedEditorial :=
  {| problem := identifier; editorial := e;
     tutorial_url := url; tutorial_format := fmt |}.

#[global] Instance Step_eq_dec : EqDecision Step.
Proof. solve_decision. Defined.

(** How often the operation [st] is invoked along a trace. *)
Definition times (st : Step) (t : list Event) : nat :=
  length (filter (fun x => x = st) (steps t)).

(** The messages of the WARNING records of a trace, in order. *)
Definition warnings (t : list Event) : list string :=
  omap (fun ev => match ev with EvLog WARNING m => Some m | _ => None end) t.

(** The calls of the cache block of [get_editorial] when it is entered: a
    cache client is then present, so [_get_from_cache] reaches its [get]. *)
Definition lookup_calls (o : AsyncEditorialOrchestrator)
    (identifier : ProblemIdentifier) : list Event :=
  if caching o
  then [EvGetFromCache identifier; EvCacheGet (cache_key identifier)]
  else [].

(** The calls of a pipeline run that stops at the first step that raises. *)
Inductive pipeline_failure (identifier : ProblemIdentifier) : list Event -> Prop :=
  | fails_at_problem_page :
      pipeline_failure identifier [EvParseProblemPage identifier]
  | fails_at_finder :
      pipeline_failure identifier
        [EvParseProblemPage identifier; EvFindTutorial identifier]
  | fails_at_tutorial_parser url :
      pipeline_failure identifier
        [EvParseProblemPage identifier; EvFindTutorial identifier;
         EvTutorialParse url]
  | fails_at_extractor url tutorial_data problem_title :
      pipeline_failure identifier
        [EvParseProblemPage identifier; EvFindTutorial identifier;
         EvTutorialParse url;
         EvExtract tutorial_data identifier problem_title].

(** The calls of the save block of [get_editorial] (lines 77-83): none with
    caching off; otherwise [_save_to_cache], and the backend [set] of the
    serialised envelope when [to_dict] returns. *)
Definition store_calls (o : AsyncEditorialOrchestrator)
    (identifier : ProblemIdentifier) (e : Editorial) (url : string)
    (fmt : TutorialFormat) (tail : list Event) : Prop :=
  if caching o then
    match to_dict (envelope identifier e url fmt) with
    | Ok raw =>
        tail = [EvSaveToCache identifier e url fmt;
                EvCacheSet (cache_key identifier) raw]
    | Raise _ => tail = [EvSaveToCache identifier e url fmt]
    end
  else tail = [].

(** What the guarded pipeline (lines 60-92) does when run from [s], read off
    the outcomes of its collaborators: it calls them in turn, each on the
    world the previous one left, up to the first that raises; [r] is then
    that exception normalised.  When all four return, [r] is the
    extractor's editorial with the parser's problem data, and the calls of
    the save block follow the four. *)
Definition pipeline_trace (identifier : ProblemIdentifier) (s : State)
    (r : Result (Editorial * ProblemData)) (cs : list Event) : Prop :=
  match parse_problem_page (problem_parser (self s)) identifier (world s) with
  | (Raise exc, _) =>
      r = Raise (normalise exc) /\ cs = [EvParseProblemPage identifier]
  | (Ok problem_data, w1) =>
      match find_tutorial (tutorial_finder (self s)) identifier w1 with
      | (Raise exc, _) =>
          r = Raise (normalise exc) /\
          cs = [EvParseProblemPage identifier; EvFindTutorial identifier]
      | (Ok located, w2) =>
          match parse (tutorial_parser (self s)) located w2 with
          | (Raise exc, _) =>
              r = Raise (normalise exc) /\
              cs = [EvParseProblemPage identifier; EvFindTutorial identifier;
                    EvTutorialParse located]
          | (Ok tutorial_data, w3) =>
              match extract (editorial_extractor (self s)) tutorial_data identifier
                      (title problem_data) w3 with
              | (Raise exc, _) =>
                  r = Raise (normalise exc) /\
                  cs = [EvParseProblemPage identifier; EvFindTutorial identifier;
                        EvTutorialParse located;
                        EvExtract tutorial_data identifier (title problem_data)]
              | (Ok e, _) =>
                  r = Ok (e, problem_data) /\
                  exists tail,
                    cs = ([EvParseProblemPage identifier; EvFindTutorial identifier;
                           EvTutorialParse located;
                           EvExtract tutorial_data identifier (title problem_data)]
                          ++ tail)%list /\
                    store_calls (self s) identifier e located (format tutorial_data) tail
              end
          end
      end
  end.

(** The outcomes of a call of [get_editorial] and the calls made on the way
    to each. *)
Inductive call_shape (url : string) (o : AsyncEditorialOrchestrator) :
    Result (Editorial * ProblemData) -> list Event -> Prop :=
  | shape_unresolved e0 :
      URLParser_parse url = Raise e0 ->
      call_shape url o (Raise (normalise e0)) [EvUrlParse url]
  | shape_hit identifier cached (fetched : Result ProblemData) :
      URLParser_parse url = Ok identifier ->
      caching o = true ->
      call_shape url o
        (match fetched with
         | Ok problem_data => Ok (cached, problem_data)
         | Raise e0 => Raise (normalise e0)
         end)
        [EvUrlParse url; EvGetFromCache identifier;
         EvCacheGet (cache_key identifier); EvParseProblemPage identifier]
  | shape_miss_raise identifier e0 failed :
      URLParser_parse url = Ok identifier ->
      pipeline_failure identifier failed ->
      call_shape url o (Raise (normalise e0))
        (EvUrlParse url :: lookup_calls o identifier ++ failed)
  | shape_miss_return identifier e problem_data located tutorial_data tail :
      URLParser_parse url = Ok identifier ->
      store_calls o identifier e located (format tutorial_data) tail ->
      call_shape url o (Ok (e, problem_data))
        (EvUrlParse url :: lookup_calls o identifier
         ++ [EvParseProblemPage identifier; EvFindTutorial identifier;
             EvTutorialParse located;
             EvExtract tutorial_data identifier (title problem_data)]
         ++ tail).

(** The public methods, as requests served one after the other on the same
    orchestrator object. *)
Inductive Request : Type :=
  | GetEditorial (url : string)
  | ClearCache.

Definition serve (r : Request) (s : State) : State :=
  match r with
  | GetEditorial url => (get_editorial url s).2
  | ClearCache => (clear_cache s).2
  end.

Definition serve_all (rs : list Request) (s : State) : State :=
  fold_left (fun s r => serve r s) rs s.

End Orchestrator.

Arguments State {_} World {_}.
Arguments AsyncEditorialOrchestrator {_} World {_}.
Arguments CacheClient World : clear implicits.
Arguments ProblemPageParser {_} World.
Arguments TutorialFinder {_} World.
Arguments TutorialParser {_} World.
Arguments EditorialExtractor {_} World.
Arguments Clients {_} World.


(** ** The domain models of the specification

    [domain.models] and [domain.parsers.url_parser] are not among the
    sources.  The definitions of this module follow the specification's
    data model (its section 3) and interface table (its section 6). *)

Module SpecModels.

(** Modelled from the spec: [ProblemIdentifier], "contest code, problem
    index/letter, and a derived cache_key (deterministic function of the
    coordinates)". *)
Record problem_identifier : Type := {
  contest_id : string;
  problem_index : string
}.

Definition identifier_cache_key (i : problem_identifier) : string :=
  "editorial:" ++ contest_id i ++ ":" ++ problem_index i.

Definition identifier_str (i : problem_identifier) : string :=
  contest_id i ++ problem_index i.

(** Modelled from the spec: [TutorialFormat], "an enumerated tag describing
    how the tutorial content was structured", with the tags the spec gives
    as examples. *)
Inductive format_tag : Type := PROSE | MARKDOWN | STRUCTURED.

(** Modelled from the spec: [Editorial], "one or more explanation sections
    tied to the problem". *)
Record editorial_t : Type := {
  ed_problem : problem_identifier;
  ed_sections : list string
}.

(** Modelled from the spec: [ProblemData], "at minimum a display title". *)
Record problem_data : Type := { pd_title : string }.

(** Modelled from the spec: the result of the Tutorial Content Fetcher,
    "content plus its TutorialFormat". *)
Record tutorial_data : Type := {
  td_content : string;
  td_format : format_tag
}.

Definition KeyError (k : string) : Exn := MkExn (OtherClass "KeyError") k None.
Definition TypeError (m : string) : Exn := MkExn (OtherClass "TypeError") m None.
Definition ValueError (m : string) : Exn := MkExn (OtherClass "ValueError") m None.

(** Sequencing of fallible pure steps. *)
Definition and_then {A B : Type} (r : Result A) (k : A -> Result B) : Result B :=
  match r with
  | Ok a => k a
  | Raise e => Raise e
  end.

(** [d[k]] on a mapping held as the list of its items. *)
Fixpoint dict_get (k : string) (d : list (string * Raw)) : Result Raw :=
  match d with
  | [] => Raise (KeyError k)
  | (k', v) :: d' => if String.eqb k k' then Ok v else dict_get k d'
  end.

Definition as_dict (r : Raw) : Result (list (string * Raw)) :=
  match r with
  | RDict d => Ok d
  | _ => Raise (TypeError "mapping expected")
  end.

Definition as_str (r : Raw) : Result string :=
  match r with
  | RStr s => Ok s
  | _ => Raise (TypeError "string expected")
  end.

Fixpoint as_str_list (l : list Raw) : Result (list string) :=
  match l with
  | [] => Ok []
  | r :: l' =>
      and_then (as_str r) (fun s =>
      and_then (as_str_list l') (fun ss => Ok (s :: ss)))
  end.

Definition as_list (r : Raw) : Result (list Raw) :=
  match r with
  | RList l => Ok l
  | _ => Raise (TypeError "list expected")
  end.

Definition field (k : string) (r : Raw) : Result Raw :=
  and_then (as_dict r) (dict_get k).

(** Modelled from the spec: the key-value representation of the values an
    envelope holds.  An identifier and an editorial are nested mappings, a
    format is the string of its tag. *)
Definition identifier_to_dict (i : problem_identifier) : Raw :=
  RDict [("contest_id", RStr (contest_id i));
         ("problem_index", RStr (problem_index i))].

Definition identifier_from_dict (r : Raw) : Result problem_identifier :=
  and_then (and_then (field "contest_id" r) as_str) (fun c =>
  and_then (and_then (field "problem_index" r) as_str) (fun x =>
  Ok {| contest_id := c; problem_index := x |})).

Definition format_value (f : format_tag) : string :=
  match f with
  | PROSE => "prose"
  | MARKDOWN => "markdown"
  | STRUCTURED => "structured"
  end.

Definition format_of_value (v : string) : Result format_tag :=
  if String.eqb v "prose" then Ok PROSE
  else if String.eqb v "markdown" then Ok MARKDOWN
  else if String.eqb v "structured" then Ok STRUCTURED
  else Raise (ValueError v).

Definition editorial_to_dict (e : editorial_t) : Raw :=
  RDict [("problem", identifier_to_dict (ed_problem e));
         ("sections", RList (map RStr (ed_sections e)))].

Definition editorial_from_dict (r : Raw) : Result editorial_t :=
  and_then (and_then (field "problem" r) identifier_from_dict) (fun p =>
  and_then (and_then (and_then (field "sections" r) as_list) as_str_list) (fun ss =>
  Ok {| ed_problem := p; ed_sections := ss |})).

Definition cached_editorial : Type :=
  CachedEditorialOf problem_identifier editorial_t format_tag.

(** Modelled from the spec: [CachedEditorial.to_dict], the envelope
    "serializes to a plain key-value representation (a mapping of string
    keys to primitive/structured values)". *)
Definition cached_to_dict (x : cached_editorial) : Raw :=
  RDict [("problem", identifier_to_dict (problem x));
         ("editorial", editorial_to_dict (editorial x));
         ("tutorial_url", RStr (tutorial_url x));
         ("tutorial_format", RStr (format_value (tutorial_format x)))].

(** Modelled from the spec: [CachedEditorial.from_dict], the inverse reading
    of that mapping; a stored value of another shape fails to deserialize. *)
Definition cached_from_dict (r : Raw) : Result cached_editorial :=
  and_then (and_then (field "problem" r) identifier_from_dict) (fun p =>
  and_then (and_then (field "editorial" r) editorial_from_dict) (fun e =>
  and_then (and_then (field "tutorial_url" r) as_str) (fun u =>
  and_then (and_then (and_then (field "tutorial_format" r) as_str) format_of_value) (fun f =>
  Ok {| problem := p; editorial := e; tutorial_url := u; tutorial_format := f |})))).

(** The components of a path, separated by [/]. *)
Fixpoint split_path (s : string) : list string :=
  match s with
  | EmptyString => [EmptyString]
  | String c rest =>
      if Ascii.eqb c "/"%char then EmptyString :: split_path rest
      else match split_path rest with
           | [] => [String c EmptyString]
           | x :: xs => String c x :: xs
           end
  end.

Definition InvalidURL (url : string) : Exn :=
  MkExn (DomainClass "InvalidURL") url None.

(** Modelled from the spec: [URLParser.parse], which "fails with InvalidURL
    if the URL does not match a known problem-URL shape"; the shape is that
    of the spec's scenario, [.../problem/<contest>/<index>]. *)
Definition url_parse (url : string) : Result problem_identifier :=
  match rev (split_path url) with
  | x :: c :: p :: _ =>
      if String.eqb p "problem" && negb (String.eqb c "") && negb (String.eqb x "")
      then Ok {| contest_id := c; problem_index := x |}
      else Raise (InvalidURL url)
  | _ => Raise (InvalidURL url)
  end.

#[export] Instance models : Models := {|
  ProblemIdentifier := problem_identifier;
  cache_key := identifier_cache_key;
  str_identifier := identifier_str;
  repr_identifier := identifier_str;
  ProblemData := problem_data;
  title := pd_title;
  TutorialFormat := format_tag;
  TutorialData := tutorial_data;
  format := td_format;
  Editorial := editorial_t;
  to_dict := fun x => Ok (cached_to_dict x);
  from_dict := cached_from_dict;
  URLParser_parse := url_parse
|}.

End SpecModels.

(** ** An in-memory world

    Collaborators with fixed answers, as the mocks of
    [tests/test_orchestrator.py], and a cache backend held in memory.  They
    give the concrete runs on which the properties are exercised. *)

Module InMemory.

Import SpecModels.

Record world_t : Type := MkWorld {
  cache_store : gmap string Raw;
  cache_online : bool;
  http_requests : nat;
  ai_requests : nat
}.

Definition ConnectionError : Exn :=
  MkExn (OtherClass "ConnectionError") "cache backend unreachable" None.

(** Modelled from the spec: the Cache Backend of the interface table,
    "get(key) -> raw|absent, set(key, raw), flush_all()".  The entries are a
    finite map; a backend that is not online fails every operation. *)
Definition memory_cache : CacheClient world_t := {|
  get := fun k w =>
    if cache_online w then (Ok (default RNone (cache_store w !! k)), w)
    else (Raise ConnectionError, w);
  set := fun k v w =>
    if cache_online w
    then (Ok tt, MkWorld (<[k := v]> (cache_store w)) true (http_requests w) (ai_requests w))
    else (Raise ConnectionError, w);
  flushdb := fun w =>
    if cache_online w
    then (Ok tt, MkWorld ∅ true (http_requests w) (ai_requests w))
    else (Raise ConnectionError, w)
|}.

Definition http_request (w : world_t) : world_t :=
  MkWorld (cache_store w) (cache_online w) (S (http_requests w)) (ai_requests w).

Definition ai_request (w : world_t) : world_t :=
  MkWorld (cache_store w) (cache_online w) (http_requests w) (S (ai_requests w)).

Definition page_parser : ProblemPageParser world_t := {|
  parse_problem_page := fun _ w => (Ok {| pd_title := "Test Problem" |}, http_request w)
|}.

(** A problem-page parser whose every call raises [e]. *)
Definition failing_page_parser (e : Exn) : ProblemPageParser world_t := {|
  parse_problem_page := fun _ w => (Raise e, http_request w)
|}.

Definition finder : TutorialFinder world_t := {|
  find_tutorial := fun _ w => (Ok "http://tutorial.com", ai_request (http_request w))
|}.

Definition content_parser : TutorialParser world_t := {|
  parse := fun _ w =>
    (Ok {| td_content := "Sort, then sweep."; td_format := MARKDOWN |}, http_request w)
|}.

Definition extractor : EditorialExtractor world_t := {|
  extract := fun td i _ w =>
    (Ok {| ed_problem := i; ed_sections := [td_content td] |}, ai_request w)
|}.

#[export] Instance clients : Clients world_t := {|
  HttpClient := unit;
  AiClient := unit;
  new_ProblemPageParser := fun _ => page_parser;
  new_TutorialParser := fun _ => content_parser;
  new_TutorialFinder := fun _ _ => finder;
  new_EditorialExtractor := fun _ => extractor
|}.

Definition empty_world : world_t := MkWorld ∅ true 0 0.

(** The orchestrator of the test fixture: a cache client, caching on. *)
Definition orchestrator : AsyncEditorialOrchestrator world_t :=
  init tt tt (Some memory_cache) true.

(** Constructed with [use_cache=False] and a cache client. *)
Definition orchestrator_cache_off : AsyncEditorialOrchestrator world_t :=
  init tt tt (Some memory_cache) false.

(** Constructed without a cache client. *)
Definition orchestrator_no_client : AsyncEditorialOrchestrator world_t :=
  init tt tt None true.

Definition start (o : AsyncEditorialOrchestrator world_t) (w : world_t) : State world_t :=
  MkState o w [].

Definition url_1234A : string := "https://codeforces.com/problemset/problem/1234/A".

Definition id_1234A : problem_identifier :=
  {| contest_id := "1234"; problem_index := "A" |}.

Definition sample_editorial : editorial_t :=
  {| ed_problem := id_1234A; ed_sections := ["Sort, then sweep."] |}.

Definition sample_cached : cached_editorial :=
  {| problem := id_1234A; editorial := sample_editorial;
     tutorial_url := "http://tutorial.com"; tutorial_format := MARKDOWN |}.

(** A backend that holds the envelope of problem 1234A. *)
Definition stocked_world : world_t :=
  MkWorld {[ identifier_cache_key id_1234A := cached_to_dict sample_cached ]} true 0 0.

(** A backend that holds an empty mapping under the key of problem 1234A. *)
Definition falsy_world : world_t :=
  MkWorld {[ identifier_cache_key id_1234A := RDict [] ]} true 0 0.

(** A backend that holds a value which is not an envelope. *)
Definition corrupt_world : world_t :=
  MkWorld {[ identifier_cache_key id_1234A := RStr "some json" ]} true 0 0.

(** A backend that cannot be reached. *)
Definition offline_world : world_t := MkWorld ∅ false 0 0.

Definition FetchError : Exn :=
  MkExn (DomainClass "FetchError") "problem page unavailable" None.

Definition TimeoutError : Exn :=
  MkExn (OtherClass "TimeoutError") "timed out" None.

(** [o.problem_parser = pp], as the test fixture replaces the attribute. *)
Definition with_problem_parser (o : AsyncEditorialOrchestrator world_t)
    (pp : ProblemPageParser world_t) : AsyncEditorialOrchestrator world_t :=
  {| http_client := http_client o;
     ai_client := ai_client o;
     cache_client := cache_client o;
     use_cache := use_cache o;
     problem_parser := pp;
     tutorial_parser := tutorial_parser o;
     tutorial_finder := tutorial_finder o;
     editorial_extractor := editorial_extractor o |}.

(** Collaborators with the same answers that leave the world as it is. *)
Definition quiet_orchestrator : AsyncEditorialOrchestrator world_t :=
  {| http_client := tt;
     ai_client := tt;
     cache_client := Some memory_cache;
     use_cache := true;
     problem_parser :=
       {| parse_problem_page := fun _ w => (Ok {| pd_title := "Test Problem" |}, w) |};
     tutorial_parser :=
       {| parse := fun _ w =>
            (Ok {| td_content := "Sort, then sweep."; td_format := MARKDOWN |}, w) |};
     tutorial_finder := {| find_tutorial := fun _ w => (Ok "http://tutorial.com", w) |};
     editorial_extractor :=
       {| extract := fun td i _ w =>
            (Ok {| ed_problem := i; ed_sections := [td_content td] |}, w) |} |}.

(** A cache client whose [get] always returns [v], as an [AsyncMock] with
    [get.return_value = v]. *)
Definition mock_cache (v : Raw) : CacheClient world_t := {|
  get := fun _ w => (Ok v, w);
  set := fun _ _ w => (Ok tt, w);
  flushdb := fun w => (Ok tt, w)
|}.

(** An extractor that always returns [e], as an [AsyncMock] with
    [extract.return_value = e]. *)
Definition mock_extractor (e : editorial_t) : EditorialExtractor world_t := {|
  extract := fun _ _ _ w => (Ok e, w)
|}.

(** The orchestrator of the test fixture with that cache client; each of
    its collaborators returns one fixed value. *)
Definition mocked_orchestrator (v : Raw) : AsyncEditorialOrchestrator world_t :=
  {| http_client := tt;
     ai_client := tt;
     cache_client := Some (mock_cache v);
     use_cache := true;
     problem_parser := page_parser;
     tutorial_parser := content_parser;
     tutorial_finder := finder;
     editorial_extractor := mock_extractor sample_editorial |}.

Definition unresolvable_url : string := "https://codeforces.com/".

End InMemory.

(** * Properties *)

Local Open Scope list_scope.

Section Properties.

Context `{HM : Models} {World : Type} `{HC : !Clients World}.

Implicit Types (s : State World) (o : AsyncEditorialOrchestrator World).

(** ** The frame of a run *)

Lemma frame_refl s : frame s s [].
Proof. unfold frame. rewrite app_nil_r. done. Qed.

Lemma frame_trans s s1 s2 e1 e2 :
  frame s s1 e1 -> frame s1 s2 e2 -> frame s s2 (e1 ++ e2).
Proof.
  intros (Ho1 & Ht1 & Hw1) (Ho2 & Ht2 & Hw2). unfold frame.
  rewrite Ho2, Ho1, Ht2, Ht1, Hw2, Hw1, Ho1, app_assoc.
  unfold replay. rewrite fold_left_app. done.
Qed.

Lemma steps_app (t1 t2 : list Event) : steps (t1 ++ t2) = steps t1 ++ steps t2.
Proof. apply omap_app. Qed.

Lemma calls_app (t1 t2 : list Event) : calls (t1 ++ t2) = calls t1 ++ calls t2.
Proof. apply omap_app. Qed.

Ltac run :=
  unfold get_editorial, get_editorial_body, get_editorial_handler, run_pipeline,
    _get_from_cache, _save_to_cache, clear_cache,
    bind, ret, raise, try_except, attr, log, emit, await, pure_call; simpl.

(* Closes [exists r s' evs, m s = (Ok r, s') /\ frame s s' evs /\ _] once
   [m s] has been evaluated. *)
Ltac framed :=
  eexists _, _, _; split; [reflexivity|]; split;
  [ unfold frame; simpl; split; [reflexivity|]; split;
    [ rewrite <- ?app_assoc; reflexivity
    | unfold replay; simpl;
      repeat match goal with Heq : _ = _ |- _ => rewrite Heq; simpl end;
      reflexivity ]
  | simpl; eauto ].

(* Proves [frame s s' ?evs] between two evaluated states, rewriting the
   world with the outcomes of the calls in the context. *)
Ltac frame_now :=
  unfold frame; simpl; split; [reflexivity|]; split;
  [ rewrite <- ?app_assoc; reflexivity
  | unfold replay; simpl;
    repeat match goal with Heq : _ = (_, _) |- _ => rewrite Heq; simpl end;
    reflexivity ].

(** ** The cache methods never raise *)

Lemma lookup_returns identifier s :
  exists r s' evs,
    _get_from_cache identifier s = (Ok r, s') /\ frame s s' evs /\
    (steps evs = [Lookup; BackendGet] \/ (r = None /\ steps evs = [Lookup])).
Proof.
  destruct s as [o w t]. run.
  destruct (cache_client o) as [c|] eqn:Hc; simpl; [|framed].
  destruct (get c (cache_key identifier) w) as [[raw|e] w1] eqn:Hg; simpl; [|framed].
  destruct (truthy raw); simpl; [|framed].
  destruct (from_dict raw) as [cached|e]; simpl; framed.
Qed.

Lemma store_returns identifier e url fmt s :
  exists r s' evs,
    _save_to_cache identifier e url fmt s = (Ok r, s') /\ frame s s' evs /\
    exists tail, calls evs = EvSaveToCache identifier e url fmt :: tail /\
      (tail = [] \/ exists raw, tail = [EvCacheSet (cache_key identifier) raw]).
Proof.
  destruct s as [o w t]. run.
  destruct (cache_client o) as [c|] eqn:Hc; simpl; [|framed].
  destruct (to_dict _) as [raw|exc] eqn:Hd; simpl; [|framed].
  destruct (set c (cache_key identifier) raw w) as [[[]|exc] w1] eqn:Hs; simpl; framed.
Qed.

(** ** The two paths of [get_editorial] *)

Lemma resolved_frame url identifier s :
  frame s (resolved url identifier s)
    [EvLog DEBUG ("Starting editorial extraction for URL: " +:+ url);
     EvUrlParse url;
     EvLog DEBUG ("Resolved problem identifier: " +:+ str_identifier identifier)].
Proof. done. Qed.

Lemma get_editorial_hit url identifier cached s s1 :
  URLParser_parse url = Ok identifier ->
  caching (self s) = true ->
  _get_from_cache identifier (resolved url identifier s) = (Ok (Some cached), s1) ->
  get_editorial url s =
    let '(r, w) := parse_problem_page (problem_parser (self s1)) identifier (world s1) in
    let s2 := MkState (self s1) w (trace s1 ++ [EvParseProblemPage identifier]) in
    match r with
    | Ok problem_data => (Ok (cached, problem_data), s2)
    | Raise e => get_editorial_handler e s2
    end.
Proof.
  intros Hurl Hc Hl. destruct s as [o w t]. unfold caching in Hc. simpl in Hc.
  unfold resolved in Hl. simpl in Hl.
  unfold get_editorial, get_editorial_body, bind, ret, try_except, attr, log, emit,
    await, pure_call. simpl.
  rewrite Hurl. simpl. rewrite Hc. rewrite <- !app_assoc. simpl. rewrite Hl.
  destruct (parse_problem_page _ _ _) as [[pd|e] w1]; reflexivity.
Qed.

Lemma get_editorial_miss url identifier s s1 :
  URLParser_parse url = Ok identifier ->
  lookup_absent url identifier s s1 ->
  get_editorial url s = try_except (run_pipeline identifier) get_editorial_handler s1.
Proof.
  intros Hurl Hl. destruct s as [o w t]. unfold lookup_absent, caching in Hl.
  unfold resolved in Hl. simpl in Hl.
  unfold get_editorial, get_editorial_body, bind, ret, try_except, attr, log, emit,
    await, pure_call. simpl.
  rewrite Hurl. simpl. rewrite <- !app_assoc. simpl.
  destruct Hl as [[Hc ->]|[Hc Hl]]; rewrite Hc; [reflexivity|].
  rewrite Hl. reflexivity.
Qed.

Lemma get_editorial_unresolved url e s :
  URLParser_parse url = Raise e ->
  get_editorial url s =
    get_editorial_handler e
      (MkState (self s) (world s)
         (trace s ++ [EvLog DEBUG ("Starting editorial extraction for URL: " +:+ url);
                      EvUrlParse url])).
Proof.
  intros Hurl. destruct s as [o w t].
  unfold get_editorial, get_editorial_body, bind, ret, try_except, attr, log, emit,
    await, pure_call. simpl.
  rewrite Hurl. simpl. rewrite <- !app_assoc. reflexivity.
Qed.

(** ** The pipeline *)

Lemma run_pipeline_cases identifier s :
  exists r s' evs,
    run_pipeline identifier s = (r, s') /\ frame s s' evs /\
    match r with
    | Ok (e, problem_data) =>
        exists url tutorial_data tail,
          calls evs =
            [EvParseProblemPage identifier; EvFindTutorial identifier;
             EvTutorialParse url;
             EvExtract tutorial_data identifier (title problem_data)]
            ++ (if caching (self s)
                then EvSaveToCache identifier e url (format tutorial_data) :: tail
                else [])
          /\ (tail = [] \/ exists raw, tail = [EvCacheSet (cache_key identifier) raw])
    | Raise exc =>
        raised_by_collaborator (self s) exc /\
        steps evs `prefix_of` [ProblemFetch; Locate; ContentFetch; Extract]
    end.
Proof.
  destruct s as [o w t].
  unfold run_pipeline, bind, ret, raise, try_except, attr, log, emit, await,
    pure_call, caching. simpl.
  destruct (parse_problem_page (problem_parser o) identifier w)
    as [[pd|exc] w1] eqn:H1; simpl.
  2:{ eexists _, _, _. split; [reflexivity|]. split.
      - frame_now.
      - split; [left; eauto|]. simpl. by exists [Locate; ContentFetch; Extract]. }
  destruct (find_tutorial (tutorial_finder o) identifier w1)
    as [[url|exc] w2] eqn:H2; simpl.
  2:{ eexists _, _, _. split; [reflexivity|]. split.
      - frame_now.
      - split; [right; left; eauto|]. simpl. by exists [ContentFetch; Extract]. }
  destruct (parse (tutorial_parser o) url w2) as [[td|exc] w3] eqn:H3; simpl.
  2:{ eexists _, _, _. split; [reflexivity|]. split.
      - frame_now.
      - split; [right; right; left; eauto|]. simpl. by exists [Extract]. }
  destruct (extract (editorial_extractor o) td identifier (title pd) w3)
    as [[e|exc] w4] eqn:H4; simpl.
  2:{ eexists _, _, _. split; [reflexivity|]. split.
      - frame_now.
      - split; [do 3 right; eauto 6|]. simpl. by exists []. }
  rewrite <- !app_assoc. simpl.
  pose (evs4 :=
    [EvLog DEBUG ("Parsing problem page for " +:+ str_identifier identifier);
     EvParseProblemPage identifier;
     EvLog DEBUG ("Finding tutorial for " +:+ str_identifier identifier);
     EvFindTutorial identifier;
     EvLog DEBUG ("Parsing tutorial content from " +:+ url);
     EvTutorialParse url;
     EvLog DEBUG "Extracting editorial content";
     EvExtract td identifier (title pd)]).
  assert (Hpre : frame (MkState o w t) (MkState o w4 (t ++ evs4)) evs4)
    by (subst evs4; frame_now).
  fold evs4.
  destruct (use_cache o && is_not_None (cache_client o)); simpl.
  - destruct (store_returns identifier e url (format td) (MkState o w4 (t ++ evs4)))
      as ([] & s5 & evs5 & Hs & Hf5 & tail & Hcalls & Htail).
    rewrite Hs.
    eexists _, _, _. split; [reflexivity|]. split.
    + eapply frame_trans; [eapply frame_trans; [exact Hpre | exact Hf5]|].
      unfold frame. simpl. split; [reflexivity|]. split; reflexivity.
    + exists url, td, tail. split; [|exact Htail].
      rewrite !calls_app, Hcalls. simpl. by rewrite app_nil_r.
  - eexists _, _, _. split; [reflexivity|]. split.
    + eapply frame_trans; [exact Hpre|]. unfold frame. simpl.
      split; [reflexivity|]. split; reflexivity.
    + exists url, td, []. split; [|by left]. simpl. reflexivity.
Qed.

(** ** The handler and whole calls *)

Lemma normalise_is_domain e : is_domain (normalise e) = true.
Proof. unfold normalise. by destruct (is_domain e) eqn:He. Qed.

Lemma normalise_domain e : is_domain e = true -> normalise e = e.
Proof. unfold normalise. by intros ->. Qed.

Lemma normalise_other e :
  is_domain e = false ->
  normalise e = CodeforcesEditorialError ("Failed to get editorial: " +:+ exn_msg e) e.
Proof. unfold normalise. by intros ->. Qed.

Lemma handler_raises {A : Type} e s :
  exists s' logs,
    get_editorial_handler (A := A) e s = (Raise (normalise e), s') /\
    frame s s' logs /\ steps logs = [].
Proof.
  destruct s as [o w t]. unfold get_editorial_handler, normalise.
  destruct (is_domain e); run.
  - exists (MkState o w t), []. split; [done|]. split; [apply frame_refl|done].
  - eexists _, _. split; [reflexivity|]. split; [frame_now|done].
Qed.

Lemma guarded_pipeline_cases url identifier s :
  call_outcome url s
    (try_except (run_pipeline identifier) get_editorial_handler s).1
    (try_except (run_pipeline identifier) get_editorial_handler s).2.
Proof.
  destruct (run_pipeline_cases identifier s) as (r & s' & evs & Hrun & Hf & Hr).
  unfold try_except. rewrite Hrun. destruct r as [[e pd]|exc]; simpl.
  - split; [eauto|done].
  - destruct (handler_raises (A := Editorial * ProblemData) exc s')
      as (s'' & logs & Hh & Hf' & _).
    rewrite Hh. simpl. split; [eauto using frame_trans|].
    exists exc. split; [done|]. right. tauto.
Qed.

Lemma call_outcome_frame url s s1 evs r s' :
  frame s s1 evs -> call_outcome url s1 r s' -> call_outcome url s r s'.
Proof.
  intros Hf [[evs' Hf'] Hr]. split; [eauto using frame_trans|].
  destruct r; [done|]. destruct Hf as (Ho & _). rewrite <- Ho. exact Hr.
Qed.

Lemma get_editorial_cases url s :
  call_outcome url s (get_editorial url s).1 (get_editorial url s).2.
Proof.
  destruct (URLParser_parse url) as [identifier|e] eqn:Hurl.
  2:{ rewrite (get_editorial_unresolved url e s Hurl).
      destruct (handler_raises (A := Editorial * ProblemData) e
        (MkState (self s) (world s)
           (trace s ++ [EvLog DEBUG ("Starting editorial extraction for URL: " +:+ url);
                        EvUrlParse url])))
        as (s' & logs & Hh & Hf & _).
      rewrite Hh. simpl. split.
      - eexists. eapply frame_trans; [|exact Hf]. by destruct s.
      - exists e. split; [done|]. by left. }
  pose proof (resolved_frame url identifier s) as Hres.
  destruct (caching (self s)) eqn:Hc.
  2:{ rewrite (get_editorial_miss url identifier s (resolved url identifier s) Hurl)
        by (left; done).
      eapply call_outcome_frame; [exact Hres|].
      pose proof (guarded_pipeline_cases url identifier (resolved url identifier s)) as Hg.
      destruct Hg as [Hf Hr]. split; [exact Hf|].
      destruct (try_except _ _ _).1; [done|]. exact Hr. }
  destruct (lookup_returns identifier (resolved url identifier s))
    as ([cached|] & s1 & evs1 & Hl & Hf1 & Hsteps).
  - rewrite (get_editorial_hit url identifier cached s s1 Hurl Hc Hl).
    assert (Hs1 : self s1 = self s) by (destruct Hf1 as (Ho & _); exact Ho).
    destruct (parse_problem_page (problem_parser (self s1)) identifier (world s1))
      as [[pd|e] w'] eqn:Hpp; simpl.
    + split; [|done]. eexists. eapply frame_trans; [exact Hres|].
      eapply frame_trans; [exact Hf1|].
      unfold frame. simpl. split; [reflexivity|]. split; [reflexivity|].
      unfold replay. simpl. by rewrite Hpp.
    + destruct (handler_raises (A := Editorial * ProblemData) e
        (MkState (self s1) w' (trace s1 ++ [EvParseProblemPage identifier])))
        as (s' & logs & Hh & Hf & _).
      rewrite Hh. simpl. split.
      * eexists. eapply frame_trans; [exact Hres|].
        eapply frame_trans; [exact Hf1|]. eapply frame_trans; [|exact Hf].
        unfold frame. simpl. split; [reflexivity|]. split; [reflexivity|].
        unfold replay. simpl. by rewrite Hpp.
      * exists e. split; [done|]. right. left. rewrite <- Hs1. eauto.
  - rewrite (get_editorial_miss url identifier s s1 Hurl) by (right; done).
    eapply call_outcome_frame; [eapply frame_trans; [exact Hres|exact Hf1]|].
    apply guarded_pipeline_cases.
Qed.

Lemma steps_calls (t : list Event) : steps (calls t) = steps t.
Proof.
  unfold steps, calls. induction t as [|ev t IH]; [done|].
  destruct ev; simpl; first [exact IH | f_equal; exact IH].
Qed.

Lemma lookup_absent_frame url identifier s s1 :
  lookup_absent url identifier s s1 ->
  exists evs, frame (resolved url identifier s) s1 evs /\
    (steps evs = [] \/ steps evs = [Lookup] \/ steps evs = [Lookup; BackendGet]).
Proof.
  intros [[_ ->]|[_ Hl]].
  - exists []. split; [apply frame_refl|by left].
  - destruct (lookup_returns identifier (resolved url identifier s))
      as (r & s1' & evs & Hl' & Hf & Hst).
    rewrite Hl in Hl'. injection Hl' as <- <-. exists evs. split; [done|].
    destruct Hst as [Hst|[_ Hst]]; auto.
Qed.

(** ** Cache hit *)

(** C1. On a cache hit (the cache block is entered and [_get_from_cache]
    returns an editorial) the operations invoked by the call are exactly the
    resolver, the lookup with its backend read, and one problem-page fetch:
    the tutorial locator, the tutorial content fetcher and the extractor are
    not invoked.  When the fetch returns, the call returns the cached
    editorial paired with the fetched problem data. *)
Theorem cache_hit_short_circuit url identifier cached s s1 :
  URLParser_parse url = Ok identifier ->
  caching (self s) = true ->
  _get_from_cache identifier (resolved url identifier s) = (Ok (Some cached), s1) ->
  (exists evs,
     trace (get_editorial url s).2 = trace s ++ evs /\
     steps evs = [Resolve; Lookup; BackendGet; ProblemFetch]) /\
  match parse_problem_page (problem_parser (self s)) identifier (world s1) with
  | (Ok problem_data, _) => (get_editorial url s).1 = Ok (cached, problem_data)
  | (Raise e, _) => (get_editorial url s).1 = Raise (normalise e)
  end.
Proof.
  intros Hurl Hc Hl.
  destruct (lookup_returns identifier (resolved url identifier s))
    as (r & s1' & evs1 & Hl' & Hf1 & Hst).
  rewrite Hl in Hl'. injection Hl' as <- <-.
  destruct Hst as [Hst|[? _]]; [|done].
  destruct Hf1 as (Ho & Ht & _). simpl in Ho, Ht.
  rewrite (get_editorial_hit url identifier cached s s1 Hurl Hc Hl), Ho.
  destruct (parse_problem_page (problem_parser (self s)) identifier (world s1))
    as [[pd|e] w']; simpl.
  - split; [|done]. eexists. rewrite Ht, <- !app_assoc. split; [reflexivity|].
    rewrite !steps_app, Hst. done.
  - destruct (handler_raises (A := Editorial * ProblemData) e
        (MkState (self s) w' (trace s1 ++ [EvParseProblemPage identifier])))
        as (s' & logs & Hh & (_ & Ht' & _) & Hlogs).
    rewrite Hh. simpl. split; [|done]. eexists. simpl in Ht'.
    rewrite Ht', Ht, <- !app_assoc. split; [reflexivity|].
    rewrite !steps_app, Hst, Hlogs. done.
Qed.

(** C10. On a cache hit whose problem-page fetch raises [e], the call raises
    [e] in its normalised form: it returns no pair at all, although
    [_get_from_cache] had returned an editorial. *)
Theorem cache_hit_fetch_failure url identifier cached s s1 e w' :
  URLParser_parse url = Ok identifier ->
  caching (self s) = true ->
  _get_from_cache identifier (resolved url identifier s) = (Ok (Some cached), s1) ->
  parse_problem_page (problem_parser (self s1)) identifier (world s1) = (Raise e, w') ->
  (get_editorial url s).1 = Raise (normalise e) /\
  forall r, (get_editorial url s).1 <> Ok r.
Proof.
  intros Hurl Hc Hl Hpp.
  rewrite (get_editorial_hit url identifier cached s s1 Hurl Hc Hl), Hpp.
  destruct (handler_raises (A := Editorial * ProblemData) e
      (MkState (self s1) w' (trace s1 ++ [EvParseProblemPage identifier])))
      as (s' & logs & Hh & _).
  simpl. rewrite Hh. simpl. split; [done|]. intros r. discriminate.
Qed.

(** ** Error normalisation *)

Lemma pipeline_step_failure identifier s e :
  pipeline_step_raises identifier s e ->
  (try_except (run_pipeline identifier) get_editorial_handler s).1 = Raise (normalise e).
Proof.
  unfold pipeline_step_raises. intros Hraise. destruct s as [o w t]. simpl in *.
  unfold try_except, run_pipeline, bind, ret, attr, log, emit, await. simpl.
  destruct (parse_problem_page (problem_parser o) identifier w) as [[pd|e1] w1]; simpl.
  2:{ subst e1. match goal with |- context [get_editorial_handler e ?st] =>
        destruct (handler_raises (A := Editorial * ProblemData) e st) as (? & ? & -> & _) end.
      done. }
  destruct (find_tutorial (tutorial_finder o) identifier w1) as [[u|e2] w2]; simpl.
  2:{ subst e2. match goal with |- context [get_editorial_handler e ?st] =>
        destruct (handler_raises (A := Editorial * ProblemData) e st) as (? & ? & -> & _) end.
      done. }
  destruct (parse (tutorial_parser o) u w2) as [[td|e3] w3]; simpl.
  2:{ subst e3. match goal with |- context [get_editorial_handler e ?st] =>
        destruct (handler_raises (A := Editorial * ProblemData) e st) as (? & ? & -> & _) end.
      done. }
  destruct (extract (editorial_extractor o) td identifier (title pd) w3)
    as [[ed|e4] w4]; simpl; [done|].
  subst e4. match goal with |- context [get_editorial_handler e ?st] =>
    destruct (handler_raises (A := Editorial * ProblemData) e st) as (? & ? & -> & _) end.
  done.
Qed.

(** C2. Whatever the [try] body of [get_editorial] raises reaches the caller
    normalised: a [CodeforcesEditorialError] is re-raised as it is, from the
    state the body left; any other exception is logged and replaced by one
    [CodeforcesEditorialError] whose cause is that exception, itself not a
    domain error.  So a call raises nothing but domain errors; and an
    exception of the resolver or of a pipeline step surfaces in that form. *)
Theorem error_normalisation url s :
  match get_editorial_body url (started url s) with
  | (Ok r, s0) => get_editorial url s = (Ok r, s0)
  | (Raise e, s0) =>
      if is_domain e then get_editorial url s = (Raise e, s0)
      else
        get_editorial url s =
          (Raise (CodeforcesEditorialError ("Failed to get editorial: " +:+ exn_msg e) e),
           MkState (self s0) (world s0)
             (trace s0 ++ [EvLog ERROR ("Unexpected error in orchestrator: " +:+ exn_msg e)]))
        /\ exn_cause (normalise e) = Some e
  end /\
  match (get_editorial url s).1 with
  | Ok _ => True
  | Raise e => is_domain e = true
  end /\
  (forall e, URLParser_parse url = Raise e ->
     (get_editorial url s).1 = Raise (normalise e)) /\
  (forall identifier s1 e,
     URLParser_parse url = Ok identifier ->
     lookup_absent url identifier s s1 ->
     pipeline_step_raises identifier s1 e ->
     (get_editorial url s).1 = Raise (normalise e)).
Proof.
  split; [|split; [|split]].
  - unfold get_editorial, try_except, bind, log, emit. fold (started url s).
    destruct (get_editorial_body url (started url s)) as [[r|e] s0]; [done|].
    unfold get_editorial_handler, normalise.
    destruct (is_domain e) eqn:He; [done|]. split; done.
  - unfold get_editorial, try_except, bind, log, emit. fold (started url s).
    destruct (get_editorial_body url (started url s)) as [[r|e] s0]; [done|].
    unfold get_editorial_handler.
    destruct (is_domain e) eqn:He; simpl; done.
  - intros e Hurl. rewrite (get_editorial_unresolved url e s Hurl).
    match goal with |- context [get_editorial_handler e ?st] =>
      destruct (handler_raises (A := Editorial * ProblemData) e st) as (? & ? & -> & _) end.
    done.
  - intros identifier s1 e Hurl Hl Hraise.
    rewrite (get_editorial_miss url identifier s s1 Hurl Hl).
    by apply pipeline_step_failure.
Qed.

(** ** Cache fault tolerance *)

Lemma lookup_read_failure c identifier s w1 e :
  cache_client (self s) = Some c ->
  read_fails c identifier (world s) w1 e ->
  exists s1, _get_from_cache identifier s = (Ok None, s1) /\ world s1 = w1.
Proof.
  intros Hc Hfail. destruct s as [o w t]. simpl in *. run. rewrite Hc. simpl.
  destruct Hfail as [Hg|(raw & Hg & Hraw & Hd)]; rewrite Hg; simpl.
  - eexists. split; reflexivity.
  - rewrite Hraw. simpl. rewrite Hd. simpl. eexists. split; reflexivity.
Qed.

Lemma pipeline_survives_store identifier s pd w1 url w2 td w3 e w4 :
  parse_problem_page (problem_parser (self s)) identifier (world s) = (Ok pd, w1) ->
  find_tutorial (tutorial_finder (self s)) identifier w1 = (Ok url, w2) ->
  parse (tutorial_parser (self s)) url w2 = (Ok td, w3) ->
  extract (editorial_extractor (self s)) td identifier (title pd) w3 = (Ok e, w4) ->
  (try_except (run_pipeline identifier) get_editorial_handler s).1 = Ok (e, pd).
Proof.
  intros H1 H2 H3 H4. destruct s as [o w t]. simpl in *.
  unfold try_except, run_pipeline, bind, ret, attr, log, emit, await. simpl.
  rewrite H1. simpl. rewrite H2. simpl. rewrite H3. simpl. rewrite H4. simpl.
  destruct (use_cache o && is_not_None (cache_client o)); simpl; [|done].
  match goal with |- context [_save_to_cache ?i ?e ?u ?f ?st] =>
    destruct (store_returns i e u f st) as ([] & s5 & evs5 & Hs & _) end.
  rewrite Hs. done.
Qed.

(** C3. A failed cache read (the backend's [get] raises, or [from_dict]
    rejects the stored value) makes [_get_from_cache] return [None], so the
    call continues with the pipeline as after a miss; [_get_from_cache] and
    [_save_to_cache] never raise; when the four pipeline steps return, the
    call returns their editorial and problem data whatever the cache write
    did; and what a call raises always comes from the resolver or from one
    of the four pipeline collaborators, never from the cache. *)
Theorem cache_fault_tolerance url identifier s :
  URLParser_parse url = Ok identifier ->
  (forall c w1 e,
     caching (self s) = true ->
     cache_client (self s) = Some c ->
     read_fails c identifier (world s) w1 e ->
     exists s1,
       lookup_absent url identifier s s1 /\ world s1 = w1 /\
       get_editorial url s =
         try_except (run_pipeline identifier) get_editorial_handler s1) /\
  (forall s1 pd w1 located w2 td w3 e w4,
     parse_problem_page (problem_parser (self s1)) identifier (world s1) = (Ok pd, w1) ->
     find_tutorial (tutorial_finder (self s1)) identifier w1 = (Ok located, w2) ->
     parse (tutorial_parser (self s1)) located w2 = (Ok td, w3) ->
     extract (editorial_extractor (self s1)) td identifier (title pd) w3 = (Ok e, w4) ->
     (try_except (run_pipeline identifier) get_editorial_handler s1).1 = Ok (e, pd)) /\
  (forall s1 e located fmt,
     (exists r, (_get_from_cache identifier s1).1 = Ok r) /\
     (_save_to_cache identifier e located fmt s1).1 = Ok tt) /\
  match (get_editorial url s).1 with
  | Ok _ => True
  | Raise e => exists e0, e = normalise e0 /\ raised_by_collaborator (self s) e0
  end.
Proof.
  intros Hurl. repeat split.
  - intros c w1 e Hc Hcl Hfail.
    destruct (lookup_read_failure c identifier (resolved url identifier s) w1 e Hcl Hfail)
      as (s1 & Hl & Hw).
    exists s1. assert (Ha : lookup_absent url identifier s s1) by (right; done).
    split; [done|]. split; [done|]. by apply get_editorial_miss.
  - intros. by eapply pipeline_survives_store.
  - destruct (lookup_returns identifier s1) as (r & s' & evs & Hl & _).
    exists r. by rewrite Hl.
  - destruct (store_returns identifier e located fmt s1) as ([] & s' & evs & Hs & _).
    by rewrite Hs.
  - destruct (get_editorial_cases url s) as [_ Hr].
    destruct (get_editorial url s).1 as [r|e]; [done|].
    destruct Hr as (e0 & -> & [Hbad|Hcol]); [congruence|eauto].
Qed.

(** ** Frame *)

Lemma replay_read_only o evs w :
  collaborators_read_only o ->
  replay o evs w = replay o (backend_calls evs) w.
Proof.
  intros (Hpp & Hft & Hp & Hx). unfold replay, backend_calls.
  revert w. induction evs as [|ev evs IH]; intros w; [done|].
  destruct ev; simpl; rewrite ?Hpp, ?Hft, ?Hp, ?Hx; apply IH.
Qed.

(** C8. A call to [get_editorial], whether it returns or raises, leaves the
    orchestrator object as it was; it only appends to the trace, and the
    world changes only through the recorded calls to the collaborators and
    to the cache client.  When the four pipeline collaborators only read
    the world, the world after the call is the world before it changed by
    the cache reads and writes alone. *)
Theorem get_editorial_frame url s :
  self (get_editorial url s).2 = self s /\
  exists evs,
    frame s (get_editorial url s).2 evs /\
    (collaborators_read_only (self s) ->
     world (get_editorial url s).2 = replay (self s) (backend_calls evs) (world s)).
Proof.
  destruct (get_editorial_cases url s) as [[evs Hf] _].
  split; [by destruct Hf|]. exists evs. split; [done|].
  intros Hro. destruct Hf as (_ & _ & ->). by apply replay_read_only.
Qed.

(** ** Cache disabled, and [clear_cache] *)

Lemma caching_init http ai cache use_cache_arg :
  use_cache_arg = false \/ cache = None ->
  caching (init http ai cache use_cache_arg) = false.
Proof. unfold caching. simpl. intros [-> | ->]; [done|]. by destruct use_cache_arg. Qed.

Lemma no_caching_no_cache_step url s :
  caching (self s) = false ->
  exists evs, trace (get_editorial url s).2 = trace s ++ evs /\
    Forall (fun st => is_cache_step st = false) (steps evs).
Proof.
  intros Hc. destruct (URLParser_parse url) as [identifier|e] eqn:Hurl.
  2:{ rewrite (get_editorial_unresolved url e s Hurl).
      match goal with |- context [get_editorial_handler e ?st] =>
        destruct (handler_raises (A := Editorial * ProblemData) e st)
          as (s' & logs & Hh & (_ & Ht & _) & Hlogs) end.
      rewrite Hh. simpl in *. rewrite Ht, <- app_assoc. eexists. split; [reflexivity|].
      rewrite steps_app, Hlogs. simpl. by repeat constructor. }
  rewrite (get_editorial_miss url identifier s (resolved url identifier s) Hurl)
    by (left; done).
  destruct (run_pipeline_cases identifier (resolved url identifier s))
    as (r & s' & evs & Hrun & (_ & Ht & _) & Hr).
  unfold try_except. rewrite Hrun. simpl in Ht, Hr. rewrite Hc in Hr.
  destruct r as [[e pd]|exc]; simpl.
  - eexists. rewrite Ht, <- app_assoc. split; [reflexivity|].
    destruct Hr as (u & td & tail & Hcalls & _).
    rewrite steps_app, <- (steps_calls evs), Hcalls. simpl. by repeat constructor.
  - destruct (handler_raises (A := Editorial * ProblemData) exc s')
      as (s'' & logs & Hh & (_ & Ht' & _) & Hlogs).
    rewrite Hh. simpl. rewrite Ht', Ht, <- !app_assoc. eexists. split; [reflexivity|].
    rewrite !steps_app, Hlogs, app_nil_r. simpl.
    constructor; [done|].
    destruct Hr as [_ [k Hk]].
    assert (HF : Forall (fun st => is_cache_step st = false)
                   [ProblemFetch; Locate; ContentFetch; Extract])
      by (by repeat constructor).
    rewrite Hk in HF. by apply Forall_app in HF as [HF _].
Qed.

Lemma clear_cache_run s :
  match cache_client (self s) with
  | Some c =>
      clear_cache s =
        ((flushdb c (world s)).1,
         MkState (self s) (flushdb c (world s)).2
           (trace s ++ [EvLog INFO "Clearing cache"; EvFlushdb]))
  | None =>
      clear_cache s =
        (Ok tt,
         MkState (self s) (world s) (trace s ++ [EvLog WARNING "Cache is not enabled"]))
  end.
Proof.
  destruct s as [o w t]. run. destruct (cache_client o) as [c|]; simpl; [|done].
  destruct (flushdb c w) as [r w']. simpl. by rewrite <- app_assoc.
Qed.

(** C5. An orchestrator constructed with [use_cache=False] or with no cache
    client never invokes [_get_from_cache], [_save_to_cache] or a method of
    the cache client from [get_editorial]; constructed with no cache client,
    its [clear_cache] returns without a call and without a change. *)
Theorem disabled_cache_never_used http ai cache use_cache_arg url s :
  use_cache_arg = false \/ cache = None ->
  self s = init http ai cache use_cache_arg ->
  (exists evs, trace (get_editorial url s).2 = trace s ++ evs /\
     Forall (fun st => is_cache_step st = false) (steps evs)) /\
  (cache = None -> is_noop clear_cache s).
Proof.
  intros Hoff Hself. split.
  - apply no_caching_no_cache_step. rewrite Hself. by apply caching_init.
  - intros ->. pose proof (clear_cache_run s) as Hrun.
    assert (Hnone : cache_client (self s) = None) by (by rewrite Hself).
    rewrite Hnone in Hrun. eexists. split; [exact Hrun|done].
Qed.


(** ** The runs of the methods, case by case *)

Lemma lookup_run identifier s :
  _get_from_cache identifier s =
    match cache_client (self s) with
    | None =>
        (Ok None,
         MkState (self s) (world s) (trace s ++ [EvGetFromCache identifier]))
    | Some c =>
        let '(r, w1) := get c (cache_key identifier) (world s) in
        let t1 :=
          trace s ++ [EvGetFromCache identifier; EvCacheGet (cache_key identifier)] in
        match r with
        | Raise exc =>
            (Ok None,
             MkState (self s) w1
               (t1 ++ [EvLog WARNING ("Cache retrieval failed: " +:+ exn_msg exc)]))
        | Ok raw =>
            if truthy raw then
              let t2 :=
                t1 ++ [EvLog DEBUG ("Get editorial for identifier="
                                    +:+ repr_identifier identifier +:+ " from cache")] in
              match from_dict raw with
              | Ok cached => (Ok (Some (editorial cached)), MkState (self s) w1 t2)
              | Raise exc =>
                  (Ok None,
                   MkState (self s) w1
                     (t2 ++ [EvLog WARNING ("Cache retrieval failed: " +:+ exn_msg exc)]))
              end
            else
              (Ok None,
               MkState (self s) w1
                 (t1 ++ [EvLog DEBUG ("Cache miss for " +:+ cache_key identifier)]))
        end
    end.
Proof.
  destruct s as [o w t]. run.
  destruct (cache_client o) as [c|]; simpl; [|done].
  destruct (get c (cache_key identifier) w) as [[raw|exc] w1]; simpl;
    rewrite <- ?app_assoc; simpl; [|done].
  destruct (truthy raw); simpl; rewrite <- ?app_assoc; simpl; [|done].
  destruct (from_dict raw) as [cached|exc]; simpl; rewrite <- ?app_assoc; done.
Qed.

Lemma store_run identifier e url fmt s :
  _save_to_cache identifier e url fmt s =
    match cache_client (self s) with
    | None =>
        (Ok tt,
         MkState (self s) (world s) (trace s ++ [EvSaveToCache identifier e url fmt]))
    | Some c =>
        let t1 :=
          trace s ++ [EvSaveToCache identifier e url fmt;
                      EvLog DEBUG ("Saving editorial to cache: " +:+ cache_key identifier)] in
        match to_dict (envelope identifier e url fmt) with
        | Raise exc =>
            (Ok tt,
             MkState (self s) (world s)
               (t1 ++ [EvLog WARNING ("Failed to save to cache: " +:+ exn_msg exc)]))
        | Ok raw =>
            let '(r, w1) := set c (cache_key identifier) raw (world s) in
            let t2 := t1 ++ [EvCacheSet (cache_key identifier) raw] in
            match r with
            | Ok _ => (Ok tt, MkState (self s) w1 t2)
            | Raise exc =>
                (Ok tt,
                 MkState (self s) w1
                   (t2 ++ [EvLog WARNING ("Failed to save to cache: " +:+ exn_msg exc)]))
            end
        end
    end.
Proof.
  destruct s as [o w t]. run. unfold envelope.
  destruct (cache_client o) as [c|]; simpl; [|done].
  destruct (to_dict _) as [raw|exc]; simpl; rewrite <- ?app_assoc; simpl; [|done].
  destruct (set c (cache_key identifier) raw w) as [[[]|exc] w1]; simpl;
    rewrite <- ?app_assoc; done.
Qed.

Lemma pipeline_run identifier s :
  let o := self s in
  let t1 :=
    trace s ++ [EvLog DEBUG ("Parsing problem page for " +:+ str_identifier identifier);
                EvParseProblemPage identifier] in
  run_pipeline identifier s =
    match parse_problem_page (problem_parser o) identifier (world s) with
    | (Raise exc, w1) => (Raise exc, MkState o w1 t1)
    | (Ok problem_data, w1) =>
        let t2 :=
          t1 ++ [EvLog DEBUG ("Finding tutorial for " +:+ str_identifier identifier);
                 EvFindTutorial identifier] in
        match find_tutorial (tutorial_finder o) identifier w1 with
        | (Raise exc, w2) => (Raise exc, MkState o w2 t2)
        | (Ok located, w2) =>
            let t3 :=
              t2 ++ [EvLog DEBUG ("Parsing tutorial content from " +:+ located);
                     EvTutorialParse located] in
            match parse (tutorial_parser o) located w2 with
            | (Raise exc, w3) => (Raise exc, MkState o w3 t3)
            | (Ok tutorial_data, w3) =>
                let t4 :=
                  t3 ++ [EvLog DEBUG "Extracting editorial content";
                         EvExtract tutorial_data identifier (title problem_data)] in
                match extract (editorial_extractor o) tutorial_data identifier
                        (title problem_data) w3 with
                | (Raise exc, w4) => (Raise exc, MkState o w4 t4)
                | (Ok e, w4) =>
                    let s5 :=
                      if caching o
                      then (_save_to_cache identifier e located (format tutorial_data)
                              (MkState o w4 t4)).2
                      else MkState o w4 t4 in
                    (Ok (e, problem_data),
                     MkState (self s5) (world s5)
                       (trace s5
                        ++ [EvLog INFO ("Editorial extraction completed for "
                                        +:+ str_identifier identifier)]))
                end
            end
        end
    end.
Proof.
  destruct s as [o w t].
  unfold run_pipeline, bind, ret, attr, log, emit, await, caching. simpl.
  destruct (parse_problem_page (problem_parser o) identifier w) as [[pd|exc] w1]; simpl;
    rewrite <- ?app_assoc; simpl; [|done].
  destruct (find_tutorial (tutorial_finder o) identifier w1) as [[u|exc] w2]; simpl;
    rewrite <- ?app_assoc; simpl; [|done].
  destruct (parse (tutorial_parser o) u w2) as [[td|exc] w3]; simpl;
    rewrite <- ?app_assoc; simpl; [|done].
  destruct (extract (editorial_extractor o) td identifier (title pd) w3)
    as [[e|exc] w4]; simpl; rewrite <- ?app_assoc; simpl; [|done].
  destruct (use_cache o && is_not_None (cache_client o)); simpl; [|done].
  match goal with |- context [_save_to_cache ?i ?e ?u ?f ?st] =>
    destruct (store_returns i e u f st) as ([] & s5 & evs5 & Hs & _) end.
  rewrite Hs. done.
Qed.

(** ** The calls of a whole invocation *)

Lemma calls_of_logs (l : list Event) : steps l = [] -> calls l = [].
Proof.
  unfold steps, calls. induction l as [|ev l IH]; [done|].
  destruct ev; simpl; intros Hl; first [discriminate Hl | exact (IH Hl)].
Qed.

Lemma caching_client o : caching o = true -> exists c, cache_client o = Some c.
Proof.
  unfold caching. destruct (cache_client o) as [c|]; [eauto|].
  rewrite andb_false_r. discriminate.
Qed.

Lemma lookup_phase identifier s :
  (exists c, cache_client (self s) = Some c) ->
  exists r s1 evs,
    _get_from_cache identifier s = (Ok r, s1) /\ self s1 = self s /\
    trace s1 = trace s ++ evs /\
    calls evs = [EvGetFromCache identifier; EvCacheGet (cache_key identifier)].
Proof.
  intros [c Hc]. rewrite lookup_run, Hc.
  destruct (get c (cache_key identifier) (world s)) as [[raw|exc] w1]; simpl.
  - destruct (truthy raw); [destruct (from_dict raw) as [cached|exc]|];
      eexists _, _, _; (split; [reflexivity|]); simpl; rewrite <- ?app_assoc;
      (split; [reflexivity|]); (split; [reflexivity|]); reflexivity.
  - eexists _, _, _; (split; [reflexivity|]); simpl; rewrite <- ?app_assoc;
      (split; [reflexivity|]); (split; [reflexivity|]); reflexivity.
Qed.

Lemma store_phase identifier e url fmt s :
  caching (self s) = true ->
  exists s5 evs,
    _save_to_cache identifier e url fmt s = (Ok tt, s5) /\
    trace s5 = trace s ++ evs /\
    store_calls (self s) identifier e url fmt (calls evs).
Proof.
  intros Hcaching. destruct (caching_client _ Hcaching) as [c Hc].
  unfold store_calls. rewrite Hcaching, store_run, Hc.
  destruct (to_dict (envelope identifier e url fmt)) as [raw|exc]; simpl.
  - destruct (set c (cache_key identifier) raw (world s)) as [[[]|exc] w1]; simpl;
      eexists _, _; (split; [reflexivity|]); simpl; rewrite <- ?app_assoc;
      (split; [reflexivity|]); reflexivity.
  - eexists _, _; (split; [reflexivity|]); simpl; rewrite <- ?app_assoc;
      (split; [reflexivity|]); reflexivity.
Qed.

Lemma guarded_pipeline_shape identifier s :
  exists evs,
    trace (try_except (run_pipeline identifier) get_editorial_handler s).2
      = trace s ++ evs /\
    ((exists e0 failed,
        (try_except (run_pipeline identifier) get_editorial_handler s).1
          = Raise (normalise e0) /\
        pipeline_failure identifier failed /\ calls evs = failed) \/
     (exists e problem_data located tutorial_data tail,
        (try_except (run_pipeline identifier) get_editorial_handler s).1
          = Ok (e, problem_data) /\
        store_calls (self s) identifier e located (format tutorial_data) tail /\
        calls evs =
          [EvParseProblemPage identifier; EvFindTutorial identifier;
           EvTutorialParse located;
           EvExtract tutorial_data identifier (title problem_data)] ++ tail)).
Proof.
  unfold try_except. rewrite pipeline_run. simpl.
  destruct (parse_problem_page (problem_parser (self s)) identifier (world s))
    as [[pd|exc] w1].
  2:{ match goal with |- context [get_editorial_handler exc ?st] =>
        destruct (handler_raises (A := Editorial * ProblemData) exc st)
          as (s' & logs & -> & (_ & Ht & _) & Hlogs) end.
      simpl in *. rewrite Ht, <- app_assoc. eexists. split; [reflexivity|].
      left. exists exc. eexists. split; [done|]. split; [constructor 1|].
      rewrite calls_app, (calls_of_logs _ Hlogs). done. }
  destruct (find_tutorial (tutorial_finder (self s)) identifier w1) as [[u|exc] w2].
  2:{ match goal with |- context [get_editorial_handler exc ?st] =>
        destruct (handler_raises (A := Editorial * ProblemData) exc st)
          as (s' & logs & -> & (_ & Ht & _) & Hlogs) end.
      simpl in *. rewrite Ht, <- !app_assoc. eexists. split; [reflexivity|].
      left. exists exc. eexists. split; [done|]. split; [constructor 2|].
      rewrite !calls_app, (calls_of_logs _ Hlogs). done. }
  destruct (parse (tutorial_parser (self s)) u w2) as [[td|exc] w3].
  2:{ match goal with |- context [get_editorial_handler exc ?st] =>
        destruct (handler_raises (A := Editorial * ProblemData) exc st)
          as (s' & logs & -> & (_ & Ht & _) & Hlogs) end.
      simpl in *. rewrite Ht, <- !app_assoc. eexists. split; [reflexivity|].
      left. exists exc. eexists. split; [done|]. split; [constructor 3|].
      rewrite !calls_app, (calls_of_logs _ Hlogs). done. }
  destruct (extract (editorial_extractor (self s)) td identifier (title pd) w3)
    as [[e|exc] w4].
  2:{ match goal with |- context [get_editorial_handler exc ?st] =>
        destruct (handler_raises (A := Editorial * ProblemData) exc st)
          as (s' & logs & -> & (_ & Ht & _) & Hlogs) end.
      simpl in *. rewrite Ht, <- !app_assoc. eexists. split; [reflexivity|].
      left. exists exc. eexists. split; [done|]. split; [constructor 4|].
      rewrite !calls_app, (calls_of_logs _ Hlogs). done. }
  simpl. destruct (caching (self s)) eqn:Hcaching.
  - match goal with |- context [_save_to_cache ?i ?e ?u ?f ?st] =>
      destruct (store_phase i e u f st Hcaching) as (s5 & evs5 & Hs & Ht5 & Hcalls) end.
    rewrite Hs. simpl in *. rewrite Ht5, <- !app_assoc. eexists. split; [reflexivity|].
    right. exists e, pd, u, td, (calls evs5). split; [done|]. split; [done|].
    rewrite !calls_app. simpl. by rewrite app_nil_r.
  - simpl. rewrite <- !app_assoc. eexists. split; [reflexivity|].
    right. exists e, pd, u, td, []. split; [done|]. split.
    + unfold store_calls. by rewrite Hcaching.
    + done.
Qed.

Lemma get_editorial_shape url s :
  exists evs,
    trace (get_editorial url s).2 = trace s ++ evs /\
    call_shape url (self s) (get_editorial url s).1 (calls evs).
Proof.
  destruct (URLParser_parse url) as [identifier|e0] eqn:Hurl.
  2:{ rewrite (get_editorial_unresolved url e0 s Hurl).
      match goal with |- context [get_editorial_handler e0 ?st] =>
        destruct (handler_raises (A := Editorial * ProblemData) e0 st)
          as (s' & logs & -> & (_ & Ht & _) & Hlogs) end.
      simpl in *. rewrite Ht, <- app_assoc. eexists. split; [reflexivity|].
      rewrite calls_app, (calls_of_logs _ Hlogs). simpl. by constructor. }
  destruct (caching (self s)) eqn:Hcaching.
  2:{ rewrite (get_editorial_miss url identifier s (resolved url identifier s) Hurl)
        by (left; done).
      destruct (guarded_pipeline_shape identifier (resolved url identifier s))
        as (evs & Ht & Hshape).
      rewrite Ht. simpl. rewrite <- app_assoc. eexists. split; [reflexivity|].
      rewrite calls_app. simpl.
      destruct Hshape as [(e0 & failed & -> & Hfail & ->)
                         |(e & pd & u & td & tail & -> & Hstore & ->)].
      - pose proof (shape_miss_raise url (self s) identifier e0 failed Hurl Hfail) as Hs.
        unfold lookup_calls in Hs. by rewrite Hcaching in Hs.
      - pose proof (shape_miss_return url (self s) identifier e pd u td tail Hurl Hstore)
          as Hs.
        unfold lookup_calls in Hs. by rewrite Hcaching in Hs. }
  destruct (lookup_phase identifier (resolved url identifier s))
    as (r & s1 & evs1 & Hl & Ho & Ht1 & Hcalls1).
  { apply caching_client. exact Hcaching. }
  simpl in Ho, Ht1. destruct r as [cached|].
  - rewrite (get_editorial_hit url identifier cached s s1 Hurl Hcaching Hl).
    destruct (parse_problem_page (problem_parser (self s1)) identifier (world s1))
      as [[pd|e0] w'] eqn:Hpp; simpl.
    + rewrite Ht1, <- !app_assoc. eexists. split; [reflexivity|].
      rewrite !calls_app, Hcalls1. simpl.
      exact (shape_hit url (self s) identifier cached (Ok pd) Hurl Hcaching).
    + match goal with |- context [get_editorial_handler e0 ?st] =>
        destruct (handler_raises (A := Editorial * ProblemData) e0 st)
          as (s' & logs & -> & (_ & Ht & _) & Hlogs) end.
      simpl in *. rewrite Ht, Ht1, <- !app_assoc. eexists. split; [reflexivity|].
      rewrite !calls_app, Hcalls1, (calls_of_logs _ Hlogs). simpl.
      exact (shape_hit url (self s) identifier cached (Raise e0) Hurl Hcaching).
  - rewrite (get_editorial_miss url identifier s s1 Hurl) by (right; done).
    destruct (guarded_pipeline_shape identifier s1) as (evs & Ht & Hshape).
    rewrite Ht, Ht1, <- !app_assoc. eexists. split; [reflexivity|].
    rewrite !calls_app, Hcalls1. simpl. rewrite Ho in Hshape.
    destruct Hshape as [(e0 & failed & -> & Hfail & ->)
                       |(e & pd & u & td & tail & -> & Hstore & ->)].
    + pose proof (shape_miss_raise url (self s) identifier e0 failed Hurl Hfail) as Hs.
      unfold lookup_calls in Hs. by rewrite Hcaching in Hs.
    + pose proof (shape_miss_return url (self s) identifier e pd u td tail Hurl Hstore)
        as Hs.
      unfold lookup_calls in Hs. by rewrite Hcaching in Hs.
Qed.

(** ** Cache miss *)

Lemma guarded_pipeline_trace identifier s :
  exists evs,
    trace (try_except (run_pipeline identifier) get_editorial_handler s).2
      = trace s ++ evs /\
    pipeline_trace identifier s
      (try_except (run_pipeline identifier) get_editorial_handler s).1 (calls evs).
Proof.
  unfold try_except, pipeline_trace. rewrite pipeline_run. simpl.
  destruct (parse_problem_page (problem_parser (self s)) identifier (world s))
    as [[pd|exc] w1].
  2:{ match goal with |- context [get_editorial_handler exc ?st] =>
        destruct (handler_raises (A := Editorial * ProblemData) exc st)
          as (s' & logs & -> & (_ & Ht & _) & Hlogs) end.
      simpl in *. rewrite Ht, <- app_assoc. eexists. split; [reflexivity|].
      rewrite calls_app, (calls_of_logs _ Hlogs). done. }
  destruct (find_tutorial (tutorial_finder (self s)) identifier w1) as [[u|exc] w2].
  2:{ match goal with |- context [get_editorial_handler exc ?st] =>
        destruct (handler_raises (A := Editorial * ProblemData) exc st)
          as (s' & logs & -> & (_ & Ht & _) & Hlogs) end.
      simpl in *. rewrite Ht, <- !app_assoc. eexists. split; [reflexivity|].
      rewrite !calls_app, (calls_of_logs _ Hlogs). done. }
  destruct (parse (tutorial_parser (self s)) u w2) as [[td|exc] w3].
  2:{ match goal with |- context [get_editorial_handler exc ?st] =>
        destruct (handler_raises (A := Editorial * ProblemData) exc st)
          as (s' & logs & -> & (_ & Ht & _) & Hlogs) end.
      simpl in *. rewrite Ht, <- !app_assoc. eexists. split; [reflexivity|].
      rewrite !calls_app, (calls_of_logs _ Hlogs). done. }
  destruct (extract (editorial_extractor (self s)) td identifier (title pd) w3)
    as [[e|exc] w4].
  2:{ match goal with |- context [get_editorial_handler exc ?st] =>
        destruct (handler_raises (A := Editorial * ProblemData) exc st)
          as (s' & logs & -> & (_ & Ht & _) & Hlogs) end.
      simpl in *. rewrite Ht, <- !app_assoc. eexists. split; [reflexivity|].
      rewrite !calls_app, (calls_of_logs _ Hlogs). done. }
  simpl. destruct (caching (self s)) eqn:Hcaching.
  - match goal with |- context [_save_to_cache ?i ?e ?u ?f ?st] =>
      destruct (store_phase i e u f st Hcaching) as (s5 & evs5 & Hs & Ht5 & Hcalls) end.
    rewrite Hs. simpl in *. rewrite Ht5, <- !app_assoc. eexists. split; [reflexivity|].
    split; [done|]. exists (calls evs5). split; [|done].
    rewrite !calls_app. simpl. by rewrite app_nil_r.
  - simpl. rewrite <- !app_assoc. eexists. split; [reflexivity|].
    split; [done|]. exists []. split; [done|].
    unfold store_calls. by rewrite Hcaching.
Qed.

Lemma miss_pipeline_trace url identifier s s1 :
  URLParser_parse url = Ok identifier ->
  lookup_absent url identifier s s1 ->
  self s1 = self s /\
  exists evs,
    trace (get_editorial url s).2 = trace s1 ++ evs /\
    pipeline_trace identifier s1 (get_editorial url s).1 (calls evs).
Proof.
  intros Hurl Hl.
  destruct (lookup_absent_frame url identifier s s1 Hl) as (evs1 & (Ho & _) & _).
  split; [exact Ho|].
  rewrite (get_editorial_miss url identifier s s1 Hurl Hl).
  apply guarded_pipeline_trace.
Qed.


(** C9. When the backend returns a stored value that is false in a
    condition (an empty mapping, for one), [_get_from_cache] does not
    deserialize it and returns [None], and the call continues as after a
    miss: the pipeline runs from the world the backend read left, calling
    the problem page parser, the finder, the tutorial parser and the
    extractor in turn as far as they return, and the call returns their
    editorial when all four do. *)
Theorem falsy_cached_value_is_miss url identifier c raw w1 s :
  URLParser_parse url = Ok identifier ->
  caching (self s) = true ->
  cache_client (self s) = Some c ->
  get c (cache_key identifier) (world s) = (Ok raw, w1) ->
  truthy raw = false ->
  let s1 :=
    MkState (self s) w1
      (trace (resolved url identifier s)
       ++ [EvGetFromCache identifier; EvCacheGet (cache_key identifier);
           EvLog DEBUG ("Cache miss for " +:+ cache_key identifier)]) in
  _get_from_cache identifier (resolved url identifier s) = (Ok None, s1) /\
  lookup_absent url identifier s s1 /\
  get_editorial url s = try_except (run_pipeline identifier) get_editorial_handler s1 /\
  exists evs,
    trace (get_editorial url s).2 = trace s1 ++ evs /\
    pipeline_trace identifier s1 (get_editorial url s).1 (calls evs).
Proof.
  intros Hurl Hc Hcl Hg Hraw s1.
  assert (Hl : _get_from_cache identifier (resolved url identifier s) = (Ok None, s1)).
  { subst s1. destruct s as [o w t]. simpl in *. run.
    rewrite Hcl. simpl. rewrite Hg. simpl. rewrite Hraw. simpl.
    rewrite <- !app_assoc. reflexivity. }
  assert (Ha : lookup_absent url identifier s s1) by (right; done).
  split; [done|]. split; [done|]. split; [by apply get_editorial_miss|].
  by destruct (miss_pipeline_trace url identifier s s1 Hurl Ha) as (_ & Hp).
Qed.

(** ** Further properties of the cache methods *)

Lemma lookup_hit_intro identifier s c raw w1 cached :
  cache_client (self s) = Some c ->
  get c (cache_key identifier) (world s) = (Ok raw, w1) ->
  truthy raw = true ->
  from_dict raw = Ok cached ->
  (_get_from_cache identifier s).1 = Ok (Some (editorial cached)).
Proof. intros Hc Hg Hraw Hd. by rewrite lookup_run, Hc, Hg, Hraw, Hd. Qed.

Lemma store_state identifier e url fmt s c raw :
  cache_client (self s) = Some c ->
  to_dict (envelope identifier e url fmt) = Ok raw ->
  self (_save_to_cache identifier e url fmt s).2 = self s /\
  world (_save_to_cache identifier e url fmt s).2
    = (set c (cache_key identifier) raw (world s)).2.
Proof.
  intros Hc Hd. rewrite store_run, Hc, Hd.
  by destruct (set c (cache_key identifier) raw (world s)) as [[[]|exc] w1].
Qed.

(** X1. [_get_from_cache] returns an editorial exactly when a cache client is
    present, its [get] returns a value that is true in a condition, and
    [from_dict] accepts that value; the editorial is then the one held by
    the deserialized envelope. *)
Theorem lookup_hit_iff identifier s e :
  (_get_from_cache identifier s).1 = Ok (Some e) <->
  exists c raw cached,
    cache_client (self s) = Some c /\
    (get c (cache_key identifier) (world s)).1 = Ok raw /\
    truthy raw = true /\
    from_dict raw = Ok cached /\
    editorial cached = e.
Proof.
  rewrite lookup_run. split.
  - destruct (cache_client (self s)) as [c|]; [|discriminate].
    destruct (get c (cache_key identifier) (world s)) as [[raw|exc] w1] eqn:Hg;
      simpl; [|discriminate].
    destruct (truthy raw) eqn:Hraw; [|discriminate].
    destruct (from_dict raw) as [cached|exc] eqn:Hd; simpl; [|discriminate].
    intros [= <-]. exists c, raw, cached. by rewrite Hg.
  - intros (c & raw & cached & -> & Hg & Hraw & Hd & <-).
    destruct (get c (cache_key identifier) (world s)) as [r w1]. simpl in Hg.
    subst r. simpl. by rewrite Hraw, Hd.
Qed.

(** X2. [_save_to_cache] always returns and leaves the orchestrator as it
    was.  With a cache client and an envelope that serialises, it makes one
    backend call, the [set] of the serialised envelope under the
    identifier's cache key, and leaves the world that call leaves; with no
    client, or when serialising raises, it makes no backend call and leaves
    the world untouched. *)
Theorem store_writes_envelope_or_nothing identifier e url fmt s :
  (_save_to_cache identifier e url fmt s).1 = Ok tt /\
  self (_save_to_cache identifier e url fmt s).2 = self s /\
  exists evs,
    trace (_save_to_cache identifier e url fmt s).2 = trace s ++ evs /\
    match cache_client (self s), to_dict (envelope identifier e url fmt) with
    | Some c, Ok raw =>
        backend_calls evs = [EvCacheSet (cache_key identifier) raw] /\
        world (_save_to_cache identifier e url fmt s).2
          = (set c (cache_key identifier) raw (world s)).2
    | _, _ =>
        backend_calls evs = [] /\
        world (_save_to_cache identifier e url fmt s).2 = world s
    end.
Proof.
  rewrite store_run.
  destruct (cache_client (self s)) as [c|]; simpl.
  2:{ split; [done|]. split; [done|]. eexists. split; [reflexivity|].
      by destruct (to_dict (envelope identifier e url fmt)). }
  destruct (to_dict (envelope identifier e url fmt)) as [raw|exc]; simpl.
  2:{ split; [done|]. split; [done|]. rewrite <- app_assoc. by eexists. }
  destruct (set c (cache_key identifier) raw (world s)) as [[[]|exc] w1]; simpl;
    (split; [done|]); (split; [done|]); rewrite <- ?app_assoc; by eexists.
Qed.

(** X3. Saving and then looking up the same identifier, when the backend
    returns under that key the value just set and [from_dict] reads the
    serialised envelope back: the lookup returns the saved editorial if the
    serialised envelope is true in a condition, and [None] if it is false
    there (an empty mapping, for one), in which case the entry is stored
    but never served.  Whether [set] itself reported success plays no
    part. *)
Theorem store_then_lookup identifier e url fmt s c raw w2 cached :
  cache_client (self s) = Some c ->
  to_dict (envelope identifier e url fmt) = Ok raw ->
  get c (cache_key identifier) (set c (cache_key identifier) raw (world s)).2
    = (Ok raw, w2) ->
  from_dict raw = Ok cached ->
  editorial cached = e ->
  (_get_from_cache identifier (_save_to_cache identifier e url fmt s).2).1
    = if truthy raw then Ok (Some e) else Ok None.
Proof.
  intros Hc Hd Hg Hfrom <-.
  destruct (store_state identifier (editorial cached) url fmt s c raw Hc Hd) as [Ho Hw].
  destruct (truthy raw) eqn:Hraw.
  - eapply lookup_hit_intro; [by rewrite Ho | by rewrite Hw | done | done].
  - rewrite lookup_run, Ho, Hc, Hw, Hg. simpl. by rewrite Hraw.
Qed.

(** ** Further properties of whole calls *)

Lemma backend_calls_calls (t : list Event) : backend_calls (calls t) = backend_calls t.
Proof.
  unfold backend_calls, calls. induction t as [|ev t IH]; [done|].
  destruct ev; simpl; first [exact IH | f_equal; exact IH].
Qed.

Lemma times_calls st (t : list Event) : times st (calls t) = times st t.
Proof. unfold times. by rewrite steps_calls. Qed.

(** X4. A call that raises has made no cache write: neither
    [_save_to_cache] nor the backend's [set] is invoked unless the URL
    resolved and all four pipeline steps returned. *)
Theorem failed_call_never_stores url s e :
  (get_editorial url s).1 = Raise e ->
  exists evs,
    trace (get_editorial url s).2 = trace s ++ evs /\
    times Store evs = 0 /\ times BackendSet evs = 0.
Proof.
  intros Hraise.
  destruct (get_editorial_shape url s) as (evs & Ht & Hshape).
  exists evs. split; [exact Ht|].
  rewrite <- (times_calls Store), <- (times_calls BackendSet).
  rewrite Hraise in Hshape.
  remember (Raise e) as res eqn:Hres. remember (calls evs) as cs eqn:Hcs.
  destruct Hshape as [e0 Hurl|identifier cached fetched Hurl Hc
                     |identifier e0 failed Hurl Hfail
                     |identifier e1 pd located td tail Hurl Hstore].
  - done.
  - done.
  - unfold lookup_calls. destruct Hfail; destruct (caching (self s)); done.
  - discriminate Hres.
Qed.

(** X5. A call reads and writes no cache entry but the one of the
    identifier its URL resolved to, and never flushes: its backend calls
    are none (URL unresolved, or caching off), one [get] under the
    identifier's cache key, or that [get] followed by one [set] under the
    same key; in the last case the call returns, and the value set is the
    serialised envelope of the returned editorial. *)
Theorem call_touches_only_its_cache_entry url s :
  exists evs,
    trace (get_editorial url s).2 = trace s ++ evs /\
    match URLParser_parse url with
    | Raise _ => backend_calls evs = []
    | Ok identifier =>
        if caching (self s) then
          backend_calls evs = [EvCacheGet (cache_key identifier)] \/
          exists e problem_data located fmt raw,
            (get_editorial url s).1 = Ok (e, problem_data) /\
            to_dict (envelope identifier e located fmt) = Ok raw /\
            backend_calls evs =
              [EvCacheGet (cache_key identifier);
               EvCacheSet (cache_key identifier) raw]
        else backend_calls evs = []
    end.
Proof.
  destruct (get_editorial_shape url s) as (evs & Ht & Hshape).
  exists evs. split; [exact Ht|].
  rewrite <- (backend_calls_calls evs).
  remember (get_editorial url s).1 as res eqn:Hres.
  remember (calls evs) as cs eqn:Hcs.
  destruct Hshape as [e0 Hurl|identifier cached fetched Hurl Hc
                     |identifier e0 failed Hurl Hfail
                     |identifier e1 pd located td tail Hurl Hstore];
    rewrite Hurl.
  - done.
  - rewrite Hc. by left.
  - unfold lookup_calls. destruct Hfail; destruct (caching (self s)); simpl; auto.
  - unfold lookup_calls, store_calls in *.
    destruct (caching (self s)); [|by subst tail].
    destruct (to_dict (envelope identifier e1 located (format td))) as [raw|exc] eqn:Hd;
      subst tail; simpl; [|by left].
    right. exists e1, pd, located, (format td), raw. done.
Qed.

(** X6. A URL that the resolver rejects fails at once: the call raises the
    resolver's exception, normalised, having invoked nothing but the
    resolver, and the world is as it was. *)
Theorem unresolved_url_fails_fast url s e0 :
  URLParser_parse url = Raise e0 ->
  (get_editorial url s).1 = Raise (normalise e0) /\
  world (get_editorial url s).2 = world s /\
  exists evs,
    trace (get_editorial url s).2 = trace s ++ evs /\ steps evs = [Resolve].
Proof.
  intros Hurl. rewrite (get_editorial_unresolved url e0 s Hurl).
  match goal with |- context [get_editorial_handler e0 ?st] =>
    destruct (handler_raises (A := Editorial * ProblemData) e0 st)
      as (s' & logs & -> & (_ & Ht & Hw) & Hlogs) end.
  simpl in *. split; [done|]. split.
  - rewrite Hw. clear -Hlogs. unfold replay.
    assert (Hid : forall w, fold_left (fun w ev => effect_of (self s) ev w) logs w = w).
    { induction logs as [|ev logs IH]; [done|]. intros w.
      destruct ev; try discriminate Hlogs. simpl. apply IH. exact Hlogs. }
    apply Hid.
  - rewrite Ht, <- app_assoc. eexists. split; [reflexivity|].
    rewrite steps_app, Hlogs. done.
Qed.

(** X7. The problem page is fetched exactly once in every call whose URL
    resolves, on a hit as on a miss and whether the call returns or raises,
    and not at all when the URL does not resolve. *)
Theorem problem_page_fetched_once url s :
  exists evs,
    trace (get_editorial url s).2 = trace s ++ evs /\
    times ProblemFetch evs =
      match URLParser_parse url with
      | Ok _ => 1
      | Raise _ => 0
      end.
Proof.
  destruct (get_editorial_shape url s) as (evs & Ht & Hshape).
  exists evs. split; [exact Ht|].
  rewrite <- (times_calls ProblemFetch).
  remember (get_editorial url s).1 as res eqn:Hres.
  remember (calls evs) as cs eqn:Hcs.
  destruct Hshape as [e0 Hurl|identifier cached fetched Hurl Hc
                     |identifier e0 failed Hurl Hfail
                     |identifier e1 pd located td tail Hurl Hstore];
    rewrite Hurl.
  - done.
  - done.
  - unfold lookup_calls. destruct Hfail; destruct (caching (self s)); done.
  - unfold lookup_calls, store_calls in *.
    destruct (caching (self s)); [|by subst tail].
    by destruct (to_dict (envelope identifier e1 located (format td))); subst tail.
Qed.

(** X8. The pipeline returns [(e, problem_data)] exactly when its four
    steps return in turn, each run on the world the previous one left: the
    problem page parser gives [problem_data], the finder a URL, the tutorial
    parser the content at that URL, and the extractor gives [e] for that
    content, the identifier and the title of [problem_data].  What the cache
    write does plays no part. *)
Theorem pipeline_returns_iff identifier s e problem_data :
  (run_pipeline identifier s).1 = Ok (e, problem_data) <->
  exists w1 located w2 tutorial_data w3 w4,
    parse_problem_page (problem_parser (self s)) identifier (world s)
      = (Ok problem_data, w1) /\
    find_tutorial (tutorial_finder (self s)) identifier w1 = (Ok located, w2) /\
    parse (tutorial_parser (self s)) located w2 = (Ok tutorial_data, w3) /\
    extract (editorial_extractor (self s)) tutorial_data identifier
      (title problem_data) w3 = (Ok e, w4).
Proof.
  rewrite pipeline_run. simpl. split.
  - destruct (parse_problem_page (problem_parser (self s)) identifier (world s))
      as [[pd|exc] w1] eqn:Hpp; [|discriminate].
    destruct (find_tutorial (tutorial_finder (self s)) identifier w1)
      as [[u|exc] w2] eqn:Hft; [|discriminate].
    destruct (parse (tutorial_parser (self s)) u w2) as [[td|exc] w3] eqn:Hp; [|discriminate].
    destruct (extract (editorial_extractor (self s)) td identifier (title pd) w3)
      as [[e'|exc] w4] eqn:Hx; [|discriminate].
    simpl. intros [= <- <-]. exists w1, u, w2, td, w3, w4. done.
  - intros (w1 & u & w2 & td & w3 & w4 & H1 & H2 & H3 & H4).
    rewrite H1. simpl. rewrite H2. simpl. rewrite H3. simpl. by rewrite H4.
Qed.

(** X9. Every exception the cache methods swallow leaves one WARNING record
    that carries its message, and they log no WARNING otherwise: in
    [_get_from_cache] for a raising [get] or [from_dict], in
    [_save_to_cache] for a raising [to_dict] or [set]. *)
Theorem cache_failures_are_logged identifier e url fmt s :
  (exists evs,
     trace (_get_from_cache identifier s).2 = trace s ++ evs /\
     warnings evs =
       match cache_client (self s) with
       | None => []
       | Some c =>
           match (get c (cache_key identifier) (world s)).1 with
           | Raise exc => ["Cache retrieval failed: " +:+ exn_msg exc]
           | Ok raw =>
               if truthy raw then
                 match from_dict raw with
                 | Raise exc => ["Cache retrieval failed: " +:+ exn_msg exc]
                 | Ok _ => []
                 end
               else []
           end
       end) /\
  (exists evs,
     trace (_save_to_cache identifier e url fmt s).2 = trace s ++ evs /\
     warnings evs =
       match cache_client (self s) with
       | None => []
       | Some c =>
           match to_dict (envelope identifier e url fmt) with
           | Raise exc => ["Failed to save to cache: " +:+ exn_msg exc]
           | Ok raw =>
               match (set c (cache_key identifier) raw (world s)).1 with
               | Raise exc => ["Failed to save to cache: " +:+ exn_msg exc]
               | Ok _ => []
               end
           end
       end).
Proof.
  split.
  - rewrite lookup_run. destruct (cache_client (self s)) as [c|]; [|by eexists].
    destruct (get c (cache_key identifier) (world s)) as [[raw|exc] w1]; simpl.
    + destruct (truthy raw); [destruct (from_dict raw) as [cached|exc]|]; simpl;
        rewrite <- ?app_assoc; by eexists.
    + rewrite <- app_assoc. by eexists.
  - rewrite store_run. destruct (cache_client (self s)) as [c|]; [|by eexists].
    destruct (to_dict (envelope identifier e url fmt)) as [raw|exc]; simpl.
    + destruct (set c (cache_key identifier) raw (world s)) as [[[]|exc] w1]; simpl;
        rewrite <- ?app_assoc; by eexists.
    + rewrite <- app_assoc. by eexists.
Qed.

(** X10. However many [get_editorial] and [clear_cache] calls are served
    one after the other, the orchestrator object stays as it was before the
    first: the trace only grows, and the world changes only through the
    recorded calls to the collaborators and to the cache client. *)
Theorem requests_keep_orchestrator rs s :
  self (serve_all rs s) = self s /\
  exists evs, frame s (serve_all rs s) evs.
Proof.
  assert (Hall : exists evs, frame s (serve_all rs s) evs).
  { revert s. induction rs as [|r rs IH]; intros s.
    - exists []. apply frame_refl.
    - assert (Hone : exists evs, frame s (serve r s) evs).
      { destruct r as [url|]; simpl.
        - by destruct (get_editorial_cases url s) as [Hf _].
        - pose proof (clear_cache_run s) as Hrun.
          destruct (cache_client (self s)) as [c|] eqn:Hc; rewrite Hrun; simpl.
          + eexists. unfold frame. simpl. split; [done|]. split; [reflexivity|].
            unfold replay. simpl. by rewrite Hc.
          + eexists. unfold frame. simpl. split; [done|]. split; [reflexivity|]. done. }
      destruct Hone as [evs1 Hf1]. destruct (IH (serve r s)) as [evs2 Hf2].
      exists (evs1 ++ evs2). simpl. eapply frame_trans; eauto. }
  split; [|exact Hall]. destruct Hall as [evs Hf]. by destruct Hf.
Qed.

(** ** The tests of [tests/test_orchestrator.py] *)

(** X11. [test_get_editorial_cache_miss_runs_pipeline], for all return
    values of the mocks: when the cache client's [get] always returns
    [None], the envelope serialises and each collaborator always returns
    its fixed value, the call returns the extractor's editorial with the
    parser's problem data, the problem page is fetched once and the
    backend's [set] is called once. *)
Theorem test_cache_miss_runs_pipeline url identifier s c pd0 located0 td0 e0 raw :
  URLParser_parse url = Ok identifier ->
  use_cache (self s) = true ->
  cache_client (self s) = Some c ->
  (forall k w, (get c k w).1 = Ok RNone) ->
  to_dict (envelope identifier e0 located0 (format td0)) = Ok raw ->
  (forall i w, (parse_problem_page (problem_parser (self s)) i w).1 = Ok pd0) ->
  (forall i w, (find_tutorial (tutorial_finder (self s)) i w).1 = Ok located0) ->
  (forall u w, (parse (tutorial_parser (self s)) u w).1 = Ok td0) ->
  (forall td i t w, (extract (editorial_extractor (self s)) td i t w).1 = Ok e0) ->
  (get_editorial url s).1 = Ok (e0, pd0) /\
  exists evs,
    trace (get_editorial url s).2 = trace s ++ evs /\
    times ProblemFetch evs = 1 /\ times BackendSet evs = 1.
Proof.
  intros Hurl Huse Hc Hget Hdict Hpp Hft Hp Hx.
  assert (Hcaching : caching (self s) = true) by (unfold caching; by rewrite Huse, Hc).
  pose proof (lookup_run identifier (resolved url identifier s)) as Hl.
  simpl in Hl. rewrite Hc in Hl.
  specialize (Hget (cache_key identifier) (world s)).
  destruct (get c (cache_key identifier) (world s)) as [rg wg]. simpl in Hget.
  subst rg. simpl in Hl.
  rewrite (get_editorial_miss url identifier s _ Hurl (or_intror (conj Hcaching Hl))).
  unfold try_except. rewrite pipeline_run. simpl.
  specialize (Hpp identifier wg).
  destruct (parse_problem_page (problem_parser (self s)) identifier wg) as [r1 w1].
  simpl in Hpp. subst r1.
  specialize (Hft identifier w1).
  destruct (find_tutorial (tutorial_finder (self s)) identifier w1) as [r2 w2].
  simpl in Hft. subst r2.
  specialize (Hp located0 w2).
  destruct (parse (tutorial_parser (self s)) located0 w2) as [r3 w3].
  simpl in Hp. subst r3.
  specialize (Hx td0 identifier (title pd0) w3).
  destruct (extract (editorial_extractor (self s)) td0 identifier (title pd0) w3)
    as [r4 w4].
  simpl in Hx. subst r4. simpl. rewrite Hcaching, store_run. simpl. rewrite Hc, Hdict.
  destruct (set c (cache_key identifier) raw w4) as [[[]|exc] w5]; simpl;
    (split; [done|]); rewrite <- !app_assoc; eexists; (split; [reflexivity|]); done.
Qed.

(** X12. [test_get_editorial_cache_hit_skip_pipeline], for all return
    values of the mocks: when the cache client's [get] always returns a
    value that is true in a condition, [from_dict] accepts it and the
    problem page parser always returns its fixed value, the call returns
    the envelope's editorial with the parser's problem data, the tutorial
    finder and the extractor are not called, and the problem page is
    fetched once. *)
Theorem test_cache_hit_skips_pipeline url identifier s c raw0 cached0 pd0 :
  URLParser_parse url = Ok identifier ->
  use_cache (self s) = true ->
  cache_client (self s) = Some c ->
  (forall k w, (get c k w).1 = Ok raw0) ->
  truthy raw0 = true ->
  from_dict raw0 = Ok cached0 ->
  (forall i w, (parse_problem_page (problem_parser (self s)) i w).1 = Ok pd0) ->
  (get_editorial url s).1 = Ok (editorial cached0, pd0) /\
  exists evs,
    trace (get_editorial url s).2 = trace s ++ evs /\
    times Locate evs = 0 /\ times Extract evs = 0 /\ times ProblemFetch evs = 1.
Proof.
  intros Hurl Huse Hc Hget Hraw Hfrom Hpp.
  assert (Hcaching : caching (self s) = true) by (unfold caching; by rewrite Huse, Hc).
  pose proof (lookup_run identifier (resolved url identifier s)) as Hl.
  simpl in Hl. rewrite Hc in Hl.
  specialize (Hget (cache_key identifier) (world s)).
  destruct (get c (cache_key identifier) (world s)) as [rg wg]. simpl in Hget.
  subst rg. simpl in Hl. rewrite Hraw, Hfrom in Hl.
  rewrite (get_editorial_hit url identifier _ s _ Hurl Hcaching Hl). simpl.
  specialize (Hpp identifier wg).
  destruct (parse_problem_page (problem_parser (self s)) identifier wg) as [r1 w1].
  simpl in Hpp. subst r1. simpl.
  split; [done|]. rewrite <- !app_assoc. eexists. split; [reflexivity|]. done.
Qed.
End Properties.

(** ** The cache envelope round-trips *)

Section RoundTrip.

Import SpecModels.

Lemma as_str_list_map (l : list string) : as_str_list (map RStr l) = Ok l.
Proof. induction l as [|x l IH]; simpl; [done|]. by rewrite IH. Qed.

Lemma format_round_trip (f : format_tag) : format_of_value (format_value f) = Ok f.
Proof. by destruct f. Qed.

Lemma identifier_round_trip (i : problem_identifier) :
  identifier_from_dict (identifier_to_dict i) = Ok i.
Proof. by destruct i. Qed.

Lemma editorial_round_trip (e : editorial_t) :
  editorial_from_dict (editorial_to_dict e) = Ok e.
Proof.
  destruct e as [p ss]. unfold editorial_to_dict. simpl.
  pose proof (identifier_round_trip p) as Hp. pose proof (as_str_list_map ss) as Hss.
  revert Hp Hss. generalize (identifier_to_dict p) (map RStr ss). intros rp rss Hp Hss.
  unfold editorial_from_dict, field. simpl. rewrite Hp. simpl. by rewrite Hss.
Qed.

(** C7. Deserializing the serialized form of a cache envelope gives the
    envelope back: [from_dict] returns, and its result has the problem
    identifier, the editorial, the tutorial URL and the tutorial format of
    the original. *)
Theorem cached_editorial_round_trip (x : cached_editorial) :
  and_then (to_dict x) from_dict = Ok x /\
  exists y, cached_from_dict (cached_to_dict x) = Ok y /\
    problem y = problem x /\ editorial y = editorial x /\
    tutorial_url y = tutorial_url x /\ tutorial_format y = tutorial_format x.
Proof.
  assert (Hrt : cached_from_dict (cached_to_dict x) = Ok x).
  { destruct x as [p e u f]. unfold cached_to_dict. simpl.
    pose proof (identifier_round_trip p) as Hp.
    pose proof (editorial_round_trip e) as He.
    pose proof (format_round_trip f) as Hf.
    revert Hp He Hf.
    generalize (identifier_to_dict p) (editorial_to_dict e) (format_value f).
    intros rp re vf Hp He Hf.
    unfold cached_from_dict, field. simpl. rewrite Hp. simpl. rewrite He. simpl.
    by rewrite Hf. }
  split; [exact Hrt|]. exists x. by rewrite Hrt.
Qed.

End RoundTrip.

(** ** Runs in the in-memory world *)

Section Runs.

Import SpecModels InMemory.

(** The scenario of the specification: the first call for problem 1234A
    misses, runs the pipeline and stores the envelope; the second call, on
    the world left by the first, hits and returns the same editorial without
    the locator, the content fetcher or the extractor. *)
Example scenario_miss_then_hit :
  let first := get_editorial url_1234A (start orchestrator empty_world) in
  let second := get_editorial url_1234A (start orchestrator (world first.2)) in
  first.1 = Ok (sample_editorial, {| pd_title := "Test Problem" |}) /\
  steps (trace first.2) =
    [Resolve; Lookup; BackendGet; ProblemFetch; Locate; ContentFetch; Extract;
     Store; BackendSet] /\
  cache_store (world first.2) !! identifier_cache_key id_1234A =
    Some (cached_to_dict sample_cached) /\
  second.1 = first.1 /\
  steps (trace second.2) = [Resolve; Lookup; BackendGet; ProblemFetch].
Proof. vm_compute. repeat split; reflexivity. Qed.

(** A stored value that is not an envelope is treated as a miss and
    replaced by the envelope the pipeline produces. *)
Example corrupt_entry_is_replaced :
  let run := get_editorial url_1234A (start orchestrator corrupt_world) in
  run.1 = Ok (sample_editorial, {| pd_title := "Test Problem" |}) /\
  steps (trace run.2) =
    [Resolve; Lookup; BackendGet; ProblemFetch; Locate; ContentFetch; Extract;
     Store; BackendSet] /\
  cache_store (world run.2) !! identifier_cache_key id_1234A =
    Some (cached_to_dict sample_cached).
Proof. vm_compute. repeat split; reflexivity. Qed.

(** With the backend unreachable both the read and the write fail, and the
    call returns the editorial all the same. *)
Example unreachable_backend_is_tolerated :
  let run := get_editorial url_1234A (start orchestrator offline_world) in
  run.1 = Ok (sample_editorial, {| pd_title := "Test Problem" |}) /\
  steps (trace run.2) =
    [Resolve; Lookup; BackendGet; ProblemFetch; Locate; ContentFetch; Extract;
     Store; BackendSet] /\
  cache_store (world run.2) = ∅.
Proof. vm_compute. repeat split; reflexivity. Qed.

(** A domain error of a collaborator reaches the caller as it is; another
    exception reaches it wrapped, with the original as its cause. *)
Example problem_page_errors :
  let broken e := start (with_problem_parser orchestrator (failing_page_parser e))
                    empty_world in
  (get_editorial url_1234A (broken FetchError)).1 = Raise FetchError /\
  (get_editorial url_1234A (broken TimeoutError)).1 =
    Raise (MkExn (DomainClass "CodeforcesEditorialError")
             "Failed to get editorial: timed out" (Some TimeoutError)).
Proof. vm_compute. split; reflexivity. Qed.

Lemma memory_flush_empties (o : AsyncEditorialOrchestrator world_t) w t :
  cache_client o = Some memory_cache ->
  cache_online w = true ->
  (clear_cache (MkState o w t)).1 = Ok tt /\
  cache_store (world (clear_cache (MkState o w t)).2) = ∅.
Proof.
  intros Hc Hon. pose proof (clear_cache_run (MkState o w t)) as Hrun.
  simpl in Hrun. rewrite Hc in Hrun. rewrite Hrun. simpl. by rewrite Hon.
Qed.

(** C6. With a cache client, [clear_cache] is one call of the client's
    [flushdb]: it returns or raises what [flushdb] returns or raises,
    unwrapped, and leaves the world [flushdb] leaves, which for the
    in-memory backend holds no entry.  Without a cache client it only
    logs the warning. *)
Theorem clear_cache_flushes_or_warns :
  (forall (HM : Models) (World : Type) (HC : Clients World) (s : State World),
     match cache_client (self s) with
     | Some c =>
         clear_cache s =
           ((flushdb c (world s)).1,
            MkState (self s) (flushdb c (world s)).2
              (trace s ++ [EvLog INFO "Clearing cache"; EvFlushdb]))
     | None =>
         clear_cache s =
           (Ok tt,
            MkState (self s) (world s)
              (trace s ++ [EvLog WARNING "Cache is not enabled"]))
     end) /\
  (forall (o : AsyncEditorialOrchestrator world_t) w t,
     cache_client o = Some memory_cache ->
     if cache_online w
     then (clear_cache (MkState o w t)).1 = Ok tt /\
          forall k, cache_store (world (clear_cache (MkState o w t)).2) !! k = None
     else (clear_cache (MkState o w t)).1 = Raise ConnectionError).
Proof.
  split.
  - intros. apply clear_cache_run.
  - intros o w t Hc. destruct (cache_online w) eqn:Hon.
    + destruct (memory_flush_empties o w t Hc Hon) as [Hr Hs].
      split; [done|]. intros k. by rewrite Hs.
    + pose proof (clear_cache_run (MkState o w t)) as Hrun.
      simpl in Hrun. rewrite Hc in Hrun. rewrite Hrun. simpl. by rewrite Hon.
Qed.

Lemma clear_cache_flushes_or_warns_witness :
  (clear_cache (start orchestrator stocked_world)).1 = Ok tt /\
  forall k, cache_store (world (clear_cache (start orchestrator stocked_world)).2) !! k = None.
Proof.
  exact (proj2 clear_cache_flushes_or_warns orchestrator stocked_world [] eq_refl).
Defined.

(** C5, the remaining case: constructed with [use_cache=False] and a cache
    client, the orchestrator's [clear_cache] is not a no-op.  It flushes the
    backend, and raises when the backend does. *)
Lemma clear_cache_with_caching_off_flushes :
  orchestrator_cache_off = init tt tt (Some memory_cache) false /\
  use_cache orchestrator_cache_off = false /\
  ~ is_noop clear_cache (start orchestrator_cache_off stocked_world) /\
  (clear_cache (start orchestrator_cache_off offline_world)).1 = Raise ConnectionError.
Proof.
  split; [reflexivity|]. split; [reflexivity|]. split; [|reflexivity].
  intros (logs & Heq & _).
  apply (f_equal (fun r => cache_store (world r.2) !! identifier_cache_key id_1234A)) in Heq.
  vm_compute in Heq. discriminate.
Qed.

(** ** The theorems at work on the in-memory world *)

Lemma cache_hit_short_circuit_witness :
  let s := start orchestrator stocked_world in
  let s1 := (_get_from_cache id_1234A (resolved url_1234A id_1234A s)).2 in
  (exists evs,
     trace (get_editorial url_1234A s).2 = trace s ++ evs /\
     steps evs = [Resolve; Lookup; BackendGet; ProblemFetch]) /\
  match parse_problem_page (problem_parser (self s)) id_1234A (world s1) with
  | (Ok problem_data, _) =>
      (get_editorial url_1234A s).1 = Ok (sample_editorial, problem_data)
  | (Raise e, _) => (get_editorial url_1234A s).1 = Raise (normalise e)
  end.
Proof.
  intros s s1.
  apply (cache_hit_short_circuit (HM := models) url_1234A id_1234A sample_editorial s s1);
    vm_compute; reflexivity.
Defined.

Lemma cache_hit_fetch_failure_witness :
  let s := start (with_problem_parser orchestrator (failing_page_parser TimeoutError))
             stocked_world in
  (get_editorial url_1234A s).1 = Raise (normalise TimeoutError) /\
  forall r, (get_editorial url_1234A s).1 <> Ok r.
Proof.
  intros s.
  pose (s1 := (_get_from_cache (HM := models) id_1234A (resolved url_1234A id_1234A s)).2).
  apply (cache_hit_fetch_failure (HM := models) url_1234A id_1234A sample_editorial s s1
           TimeoutError (http_request stocked_world));
    vm_compute; reflexivity.
Defined.



Lemma falsy_cached_value_is_miss_witness :
  let s := start orchestrator falsy_world in
  let s1 :=
    MkState (self s) falsy_world
      (trace (resolved url_1234A id_1234A s)
       ++ [EvGetFromCache id_1234A; EvCacheGet (cache_key id_1234A);
           EvLog DEBUG ("Cache miss for " +:+ cache_key id_1234A)]) in
  _get_from_cache id_1234A (resolved url_1234A id_1234A s) = (Ok None, s1) /\
  lookup_absent url_1234A id_1234A s s1 /\
  get_editorial url_1234A s =
    try_except (run_pipeline id_1234A) get_editorial_handler s1 /\
  exists evs,
    trace (get_editorial url_1234A s).2 = trace s1 ++ evs /\
    (get_editorial url_1234A s).1
      = Ok (sample_editorial, {| pd_title := "Test Problem" |}) /\
    exists tail,
      calls evs =
        [EvParseProblemPage id_1234A; EvFindTutorial id_1234A;
         EvTutorialParse "http://tutorial.com";
         EvExtract {| td_content := "Sort, then sweep."; td_format := MARKDOWN |}
           id_1234A "Test Problem"]
        ++ tail /\
      store_calls (self s) id_1234A sample_editorial "http://tutorial.com" MARKDOWN tail.
Proof.
  intros s.
  apply (falsy_cached_value_is_miss (HM := models) url_1234A id_1234A memory_cache
           (RDict []) falsy_world s);
    vm_compute; reflexivity.
Defined.

Lemma error_normalisation_witness :
  let s := start (with_problem_parser orchestrator (failing_page_parser TimeoutError))
             empty_world in
  (get_editorial url_1234A s).1 =
    Raise (CodeforcesEditorialError "Failed to get editorial: timed out" TimeoutError) /\
  (get_editorial "https://codeforces.com/" s).1 = Raise (InvalidURL "https://codeforces.com/").
Proof.
  intros s. split.
  - pose (s1 := (_get_from_cache (HM := models) id_1234A (resolved url_1234A id_1234A s)).2).
    apply (proj2 (proj2 (proj2 (error_normalisation (HM := models) url_1234A s)))
             id_1234A s1 TimeoutError).
    + vm_compute; reflexivity.
    + right. split; vm_compute; reflexivity.
    + vm_compute; reflexivity.
  - apply (proj1 (proj2 (proj2 (error_normalisation (HM := models) "https://codeforces.com/" s)))
             (InvalidURL "https://codeforces.com/")).
    vm_compute; reflexivity.
Defined.

Lemma cache_fault_tolerance_witness :
  let s := start orchestrator offline_world in
  (exists s1,
     lookup_absent url_1234A id_1234A s s1 /\ world s1 = offline_world /\
     get_editorial url_1234A s =
       try_except (run_pipeline id_1234A) get_editorial_handler s1) /\
  (try_except (run_pipeline id_1234A) get_editorial_handler s).1 =
    Ok (sample_editorial, {| pd_title := "Test Problem" |}).
Proof.
  intros s.
  destruct (cache_fault_tolerance (HM := models) url_1234A id_1234A s) as (Hread & Hwrite & _).
  { vm_compute; reflexivity. }
  split.
  - apply (Hread memory_cache offline_world ConnectionError).
    + vm_compute; reflexivity.
    + vm_compute; reflexivity.
    + left. vm_compute; reflexivity.
  - eapply (Hwrite s); vm_compute; reflexivity.
Defined.

Lemma get_editorial_frame_witness :
  let s := start quiet_orchestrator empty_world in
  exists evs,
    frame s (get_editorial url_1234A s).2 evs /\
    world (get_editorial url_1234A s).2 =
      replay (self s) (backend_calls evs) (world s).
Proof.
  intros s.
  destruct (get_editorial_frame (HM := models) url_1234A s) as (_ & evs & Hf & Hro).
  exists evs. split; [exact Hf|]. apply Hro.
  repeat split; intros; reflexivity.
Defined.

Lemma disabled_cache_never_used_witness :
  let s := start orchestrator_cache_off stocked_world in
  (exists evs, trace (get_editorial url_1234A s).2 = trace s ++ evs /\
     Forall (fun st => is_cache_step st = false) (steps evs)) /\
  is_noop clear_cache (start orchestrator_no_client stocked_world).
Proof.
  intros s. split.
  - apply (disabled_cache_never_used (HM := models) (HC := clients) tt tt (Some memory_cache) false url_1234A s).
    + left. reflexivity.
    + reflexivity.
  - apply (disabled_cache_never_used (HM := models) (HC := clients) tt tt None true url_1234A
             (start orchestrator_no_client stocked_world)).
    + right. reflexivity.
    + reflexivity.
    + reflexivity.
Defined.

End Runs.

(** ** The further properties at work on the in-memory world *)

Section MoreRuns.

Import SpecModels InMemory.

Lemma lookup_hit_iff_witness :
  (_get_from_cache id_1234A (start orchestrator stocked_world)).1
    = Ok (Some sample_editorial).
Proof.
  apply (proj2 (lookup_hit_iff (HM := models) id_1234A
                  (start orchestrator stocked_world) sample_editorial)).
  exists memory_cache, (cached_to_dict sample_cached), sample_cached.
  repeat split; vm_compute; reflexivity.
Defined.

Lemma store_then_lookup_witness :
  let s := start orchestrator empty_world in
  (_get_from_cache id_1234A
     (_save_to_cache id_1234A sample_editorial "http://tutorial.com" MARKDOWN s).2).1
    = Ok (Some sample_editorial).
Proof.
  intros s.
  apply (store_then_lookup (HM := models) id_1234A sample_editorial
           "http://tutorial.com" MARKDOWN s memory_cache
           (cached_to_dict sample_cached) stocked_world sample_cached);
    vm_compute; reflexivity.
Defined.

Lemma failed_call_never_stores_witness :
  let s := start (with_problem_parser orchestrator (failing_page_parser FetchError))
             empty_world in
  exists evs,
    trace (get_editorial url_1234A s).2 = trace s ++ evs /\
    times Store evs = 0 /\ times BackendSet evs = 0.
Proof.
  intros s.
  apply (failed_call_never_stores (HM := models) url_1234A s FetchError).
  vm_compute; reflexivity.
Defined.

Lemma unresolved_url_fails_fast_witness :
  let s := start orchestrator stocked_world in
  (get_editorial unresolvable_url s).1 = Raise (normalise (InvalidURL unresolvable_url)) /\
  world (get_editorial unresolvable_url s).2 = world s /\
  exists evs,
    trace (get_editorial unresolvable_url s).2 = trace s ++ evs /\ steps evs = [Resolve].
Proof.
  intros s.
  apply (unresolved_url_fails_fast (HM := models) unresolvable_url s
           (InvalidURL unresolvable_url)).
  vm_compute; reflexivity.
Defined.

Lemma pipeline_returns_iff_witness :
  (run_pipeline id_1234A (start orchestrator offline_world)).1
    = Ok (sample_editorial, {| pd_title := "Test Problem" |}).
Proof.
  apply (proj2 (pipeline_returns_iff (HM := models) id_1234A
                  (start orchestrator offline_world) sample_editorial
                  {| pd_title := "Test Problem" |})).
  eexists _, _, _, _, _, _. repeat split; vm_compute; reflexivity.
Defined.

Lemma test_cache_miss_runs_pipeline_witness :
  let s := start (mocked_orchestrator RNone) empty_world in
  (get_editorial url_1234A s).1 = Ok (sample_editorial, {| pd_title := "Test Problem" |}) /\
  exists evs,
    trace (get_editorial url_1234A s).2 = trace s ++ evs /\
    times ProblemFetch evs = 1 /\ times BackendSet evs = 1.
Proof.
  intros s.
  apply (test_cache_miss_runs_pipeline (HM := models) url_1234A id_1234A s
           (mock_cache RNone) {| pd_title := "Test Problem" |} "http://tutorial.com"
           {| td_content := "Sort, then sweep."; td_format := MARKDOWN |}
           sample_editorial (cached_to_dict sample_cached)).
  - vm_compute; reflexivity.
  - reflexivity.
  - reflexivity.
  - intros; reflexivity.
  - vm_compute; reflexivity.
  - intros; reflexivity.
  - intros; reflexivity.
  - intros; reflexivity.
  - intros; reflexivity.
Defined.

Lemma test_cache_hit_skips_pipeline_witness :
  let s := start (mocked_orchestrator (cached_to_dict sample_cached)) empty_world in
  (get_editorial url_1234A s).1
    = Ok (sample_editorial, {| pd_title := "Test Problem" |}) /\
  exists evs,
    trace (get_editorial url_1234A s).2 = trace s ++ evs /\
    times Locate evs = 0 /\ times Extract evs = 0 /\ times ProblemFetch evs = 1.
Proof.
  intros s.
  apply (test_cache_hit_skips_pipeline (HM := models) url_1234A id_1234A s
           (mock_cache (cached_to_dict sample_cached)) (cached_to_dict sample_cached)
           sample_cached {| pd_title := "Test Problem" |}).
  - vm_compute; reflexivity.
  - reflexivity.
  - reflexivity.
  - intros; reflexivity.
  - vm_compute; reflexivity.
  - vm_compute; reflexivity.
  - intros; reflexivity.
Defined.

End MoreRuns.
